(** * SDEverse authentication module

    A shallow embedding of
      - [server/controllers/auth.controller.js] (module [Controller]): the
        validation helpers and the seven request handlers, as functions from a
        store and a request body to a new store and a response;
      - the client auth slice (module [AuthSlice]): the reducer built by
        [createSlice], as a function on the slice state and [localStorage].

    Strings are [string]s whose characters are read as the code units
    U+0000..U+00FF.  Times are milliseconds, as [Date.now()] gives them.
    Numbers that the code computes in doubles are binary64 floats. *)

From Stdlib Require Import ZArith NArith List String Ascii Bool Lia.
From Stdlib Require Import DecimalString.
From Stdlib Require PrimFloat FloatOps SpecFloat Uint63.
Import ListNotations.

Local Open Scope string_scope.
Local Open Scope Z_scope.

(* ================================================================= *)
(** ** JavaScript values and string primitives *)

Module JS.

(** The JSON primitives a request body field can hold; a missing field reads
    as [Undefined]. *)
Inductive value : Type :=
  | Undefined
  | Null
  | Bool (b : bool)
  | Num (z : Z)
  | Str (s : string).

(** [!v] is false exactly on the truthy values. *)
Definition truthy (v : value) : bool :=
  match v with
  | Undefined | Null => false
  | Bool b => b
  | Num z => negb (z =? 0)
  | Str EmptyString => false
  | Str _ => true
  end.

(** [a === b] on primitives. *)
Definition strict_eq (a b : value) : bool :=
  match a, b with
  | Undefined, Undefined => true
  | Null, Null => true
  | Bool x, Bool y => Bool.eqb x y
  | Num x, Num y => x =? y
  | Str x, Str y => String.eqb x y
  | _, _ => false
  end.

Definition code_unit (c : ascii) : N := N_of_ascii c.

Definition in_range (lo hi : N) (c : ascii) : bool :=
  ((lo <=? code_unit c) && (code_unit c <=? hi))%N.

(** WhiteSpace and LineTerminator code units below U+0100: TAB, LF, VT, FF,
    CR, SP and NBSP.  This is what [trim] strips and what [\s] matches. *)
Definition is_whitespace (c : ascii) : bool :=
  in_range 9 13 c || (code_unit c =? 32)%N || (code_unit c =? 160)%N.

Definition is_upper (c : ascii) : bool :=
  in_range 65 90 c || in_range 192 214 c || in_range 216 222 c.

Definition is_ascii_letter (c : ascii) : bool :=
  in_range 65 90 c || in_range 97 122 c.

Definition is_digit (c : ascii) : bool := in_range 48 57 c.

(** The class [[a-zA-Z0-9_]]. *)
Definition is_word (c : ascii) : bool :=
  is_ascii_letter c || is_digit c || (code_unit c =? 95)%N.

Definition lower_char (c : ascii) : ascii :=
  if is_upper c then ascii_of_N (code_unit c + 32) else c.

Fixpoint forall_chars (p : ascii -> bool) (s : string) : bool :=
  match s with
  | EmptyString => true
  | String c r => p c && forall_chars p r
  end.

Fixpoint exists_char (p : ascii -> bool) (s : string) : bool :=
  match s with
  | EmptyString => false
  | String c r => p c || exists_char p r
  end.

Fixpoint map_chars (f : ascii -> ascii) (s : string) : string :=
  match s with
  | EmptyString => EmptyString
  | String c r => String (f c) (map_chars f r)
  end.

(** [s.toLowerCase()] *)
Definition toLowerCase (s : string) : string := map_chars lower_char s.

Fixpoint trimStart (s : string) : string :=
  match s with
  | EmptyString => EmptyString
  | String c r => if is_whitespace c then trimStart r else s
  end.

Fixpoint trimEnd (s : string) : string :=
  match s with
  | EmptyString => EmptyString
  | String c r =>
      match trimEnd r with
      | EmptyString => if is_whitespace c then EmptyString else String c EmptyString
      | r' => String c r'
      end
  end.

(** [s.trim()] *)
Definition trim (s : string) : string := trimEnd (trimStart s).

(** [s.length] *)
Definition length (s : string) : Z := Z.of_nat (String.length s).

(** Template-literal rendering of an integer. *)
Definition show (z : Z) : string := NilZero.string_of_int (Z.to_int z).

(** [Math.floor(x)] of a double, as an integer.  NaN and the infinities,
    which no sum of the code below reaches, read as 0. *)
Definition floor (x : PrimFloat.float) : Z :=
  match FloatOps.Prim2SF x with
  | SpecFloat.S754_finite sign m e =>
      Z.shiftl (if sign then Z.neg m else Z.pos m) e
  | _ => 0
  end.

(** An integer below 2^53 as a double. *)
Definition double (z : Z) : PrimFloat.float :=
  PrimFloat.of_uint63 (Uint63.of_Z z).

(** [Math.floor(lo + rnd * span)] in doubles, [rnd] being what
    [Math.random()] returned. *)
Definition floor_random (lo span : Z) (rnd : PrimFloat.float) : Z :=
  floor (PrimFloat.add (double lo) (PrimFloat.mul rnd (double span))).

(** A string is trimmed at the start when it is empty or begins with a
    character that is no whitespace. *)
Definition starts_clean (s : string) : Prop :=
  match s with
  | EmptyString => True
  | String c _ => is_whitespace c = false
  end.

End JS.

(* ================================================================= *)
(** ** The two stores *)

(** Credential store: the [User] model. *)
Module User.

(** Modelled from the spec: the user model is not among the sources.  A
    record has a unique id, a username, an email, a password hash and an
    optional profile picture. *)
Record doc : Type := mkDoc {
  _id : N;
  username : string;
  email : string;
  password : string;
  profilePic : option string
}.

(** A document as it is serialised in a response; [password] is [None] once
    the handler has run [delete userObj.password]. *)
Record view : Type := mkView {
  v_id : N;
  v_username : string;
  v_email : string;
  v_password : option string;
  v_profilePic : option string
}.

(** [user.toObject()], which is also how [res.json] serialises a document. *)
Definition toObject (d : doc) : view :=
  mkView (_id d) (username d) (email d) (Some (password d)) (profilePic d).

(** [delete userObj.password] *)
Definition delete_password (v : view) : view :=
  mkView (v_id v) (v_username v) (v_email v) None (v_profilePic v).

(** [User.findOne({ email })]: the first record, in insertion order, whose
    email equals the query's. *)
Definition findOne_email (users : list doc) (e : string) : option doc :=
  find (fun d => String.eqb (email d) e) users.

(** [User.findOne({ username })], likewise. *)
Definition findOne_username (users : list doc) (u : string) : option doc :=
  find (fun d => String.eqb (username d) u) users.

(** An id no record has yet. *)
Definition next_id (users : list doc) : N :=
  N.succ (fold_right N.max 0%N (map _id users)).

(** Modelled from the spec: the user model is not among the sources.  A new
    record gets a unique id, its password goes through the model's hashing
    step [hash] before it is stored, and the store's unique indexes on
    username and email refuse a duplicate at write time ([None]). *)
Definition create (hash : JS.value -> string) (users : list doc)
    (u e : string) (pw : JS.value) (pic : option string)
  : option (list doc * doc) :=
  match findOne_email users e, findOne_username users u with
  | None, None =>
      let d := mkDoc (next_id users) u e (hash pw) pic in
      Some ((users ++ [d])%list, d)
  | _, _ => None
  end.

(** Modelled from the spec: [user.password = pw; user.save()] overwrites the
    password hash of the record with that id, in place. *)
Definition save_password (hash : JS.value -> string) (users : list doc)
    (target : doc) (pw : JS.value) : list doc :=
  map (fun d =>
         if (_id d =? _id target)%N
         then mkDoc (_id d) (username d) (email d) (hash pw) (profilePic d)
         else d)
      users.

End User.

(** OTP store: the [OTP] model. *)
Module OTP.

(** Modelled from the spec: the OTP model is not among the sources.  A
    record has a target email, a numeric code and a creation timestamp. *)
Record doc : Type := mkDoc {
  email : string;
  code : Z;
  createdAt : Z
}.

(** Modelled from the spec: [OTP.findOne({ email, code })] looks up a record
    matching email and code exactly; it is the first such record in insertion
    order.  A query number that is no integer ([None]: NaN or a fraction)
    equals no stored code. *)
Definition findOne (otps : list doc) (e : string) (c : option Z) : option doc :=
  match c with
  | None => None
  | Some n => find (fun r => String.eqb (email r) e && (code r =? n)) otps
  end.

(** Modelled from the spec: the OTP model is not among the sources.  A new
    record is stamped with the creation time. *)
Definition create (otps : list doc) (e : string) (c : Z) (now : Z) : list doc :=
  (otps ++ [mkDoc e c now])%list.

End OTP.

(* ================================================================= *)
(** ** server/controllers/auth.controller.js *)

Module Controller.

(** The collaborators the controller imports and never defines. *)
Class Capabilities : Type := {
  (** [Number(s)] on a string; [None] is NaN or a non-integer. *)
  StringToNumber : string -> option Z;
  (** the user model's hashing of a password on its way into the store *)
  hashPassword : JS.value -> string;
  (** [user.matchPassword(entered)] *)
  matchPassword : User.doc -> JS.value -> bool;
  (** [generateToken(id)], minted at the given time *)
  generateToken : N -> Z -> string;
  (** [jwt.sign({ id }, JWT_SECRET, { expiresIn: "7d" })] at the given time,
      which stamps the token's issue and expiry *)
  jwt_sign : N -> Z -> string;
  (** [client.verifyIdToken(...)] then [getPayload()] at the given time:
      email, name and picture, or [None] when verification throws *)
  verifyIdToken : JS.value -> Z -> option (string * string * string);
  (** [sendEmail(to, subject, text)]: [Some m] when it throws [Error(m)] *)
  sendEmail : string -> string -> string -> option string
}.

(** [req.body] *)
Record Body : Type := mkBody {
  username : JS.value;
  email : JS.value;
  password : JS.value;
  code : JS.value;
  newPassword : JS.value;
  confirmPassword : JS.value;
  token : JS.value
}.

(** What [res.json] is given. *)
Inductive payload : Type :=
  | Ack (message : string) (success : bool)
  | Identity (user : User.view) (token : string)
  | Me (user : User.view)
  | GoogleSession (success : bool) (token : string) (user : User.view).

(** A handler either answers with [res.status(s).json(p)] or throws; a thrown
    error carries the status the handler had set on [res] before (200 when it
    had set none). *)
Inductive response : Type :=
  | Json (status : Z) (p : payload)
  | Threw (status : Z) (message : string).

Record Store : Type := mkStore {
  users : list User.doc;
  otps : list OTP.doc;
  outbox : list (string * string * string)
}.

Definition empty_store : Store := mkStore [] [] [].

(* ---------------- Validation Helpers ---------------- *)

(** The class [[^\s@]]. *)
Definition email_atom (c : ascii) : bool :=
  negb (JS.is_whitespace c || Ascii.eqb c "@").

(** A [.] of [s] that has at least one character after it. *)
Fixpoint dot_before_end (s : string) : bool :=
  match s with
  | String c (String _ _ as r) => Ascii.eqb c "." || dot_before_end r
  | _ => false
  end.

(** [[^\s@]+\.[^\s@]+$] on the part after the [@]: atoms only, with a dot
    that is neither first nor last. *)
Definition email_domain (s : string) : bool :=
  JS.forall_chars email_atom s &&
  match s with
  | String _ r => dot_before_end r
  | EmptyString => false
  end.

(** [^[^\s@]+@] followed by the domain; [seen] tells whether the local part
    already has a character. *)
Fixpoint email_local (seen : bool) (s : string) : bool :=
  match s with
  | EmptyString => false
  | String c r =>
      if Ascii.eqb c "@" then seen && email_domain r
      else if JS.is_whitespace c then false
      else email_local true r
  end.

(** [/^[^\s@]+@[^\s@]+\.[^\s@]+$/.test(s)] *)
Definition emailRegex (s : string) : bool := email_local false s.

Definition validateEmail (email : JS.value) : bool :=
  match email with
  | JS.Str s => emailRegex (JS.trim s) && (JS.length s <=? 100)
  | _ => false
  end.

(** [/^[a-zA-Z0-9_]{3,20}$/.test(s)] *)
Definition usernameRegex (s : string) : bool :=
  JS.forall_chars JS.is_word s && (3 <=? JS.length s) && (JS.length s <=? 20).

Definition validateUsername (username : JS.value) : bool :=
  match username with
  | JS.Str s => usernameRegex (JS.trim s)
  | _ => false
  end.

Definition validatePassword (password : JS.value) : bool :=
  match password with
  | JS.Str s =>
      (JS.length s >=? 6) && (JS.length s <=? 128) &&
      JS.exists_char JS.is_ascii_letter s &&
      JS.exists_char JS.is_digit s
  | _ => false
  end.

(** [s.replace(/^\$/, '')]: one leading dollar sign is dropped. *)
Definition strip_dollar (s : string) : string :=
  match s with
  | String c r => if Ascii.eqb c "$" then r else s
  | EmptyString => EmptyString
  end.

Definition sanitizeInput (input : JS.value) : string :=
  match input with
  | JS.Str s => strip_dollar (JS.trim s)
  | _ => EmptyString
  end.

Section Handlers.

Context `{Capabilities}.

(** [Number(v)] *)
Definition Number (v : JS.value) : option Z :=
  match v with
  | JS.Undefined => None
  | JS.Null => Some 0
  | JS.Bool b => Some (if b then 1 else 0)
  | JS.Num z => Some z
  | JS.Str s => StringToNumber s
  end.

(* ---------------- Google OAuth ---------------- *)
(** The [try] block throws when the token does not verify or when the store
    refuses the new record; [catch] answers both with status 400.  The [user]
    put in the answer is the document itself. *)
Definition googleAuth (st : Store) (body : Body) (now : Z) : Store * response :=
  let failed := Json 400 (Ack "Google login failed" false) in
  match verifyIdToken (token body) now with
  | None => (st, failed)
  | Some (email, name, picture) =>
      let found :=
        match User.findOne_email (users st) email with
        | Some user => Some (users st, user)
        | None =>
            User.create hashPassword (users st) name email
                        (JS.Str EmptyString) (Some picture)
        end in
      match found with
      | None => (st, failed)
      | Some (users', user) =>
          let jwtToken := jwt_sign (User._id user) now in
          (mkStore users' (otps st) (outbox st),
           Json 200 (GoogleSession true jwtToken (User.toObject user)))
      end
  end.

(* ---------------- Register ---------------- *)
Definition registerUser (st : Store) (body : Body) (now : Z) : Store * response :=
  if negb (JS.truthy (username body)) || negb (JS.truthy (email body))
     || negb (JS.truthy (password body))
  then (st, Threw 400 "Please provide all required fields")
  else
    let sanitizedUsername := sanitizeInput (username body) in
    let sanitizedEmail := sanitizeInput (email body) in
    if negb (validateUsername (JS.Str sanitizedUsername))
    then (st, Threw 200 "Invalid username format")
    else if negb (validateEmail (JS.Str sanitizedEmail))
    then (st, Threw 200 "Invalid email address")
    else if negb (validatePassword (password body))
    then (st, Threw 200 "Weak password")
    else
      let emailExists :=
        User.findOne_email (users st) (JS.toLowerCase sanitizedEmail) in
      let usernameExists :=
        User.findOne_username (users st) sanitizedUsername in
      match emailExists, usernameExists with
      | Some _, _ => (st, Threw 200 "Email already registered")
      | None, Some _ => (st, Threw 200 "Username already taken")
      | None, None =>
          match User.create hashPassword (users st) sanitizedUsername
                            (JS.toLowerCase sanitizedEmail) (password body) None
          with
          | None => (st, Threw 200 "E11000 duplicate key error")
          | Some (users', user) =>
              let userObj := User.delete_password (User.toObject user) in
              (mkStore users' (otps st) (outbox st),
               Json 201 (Identity userObj (generateToken (User._id user) now)))
          end
      end.

(* ---------------- Login ---------------- *)
Definition loginUser (st : Store) (body : Body) (now : Z) : Store * response :=
  if negb (JS.truthy (email body)) || negb (JS.truthy (password body))
  then (st, Threw 200 "Please provide email and password")
  else
    let sanitizedEmail := sanitizeInput (email body) in
    if negb (validateEmail (JS.Str sanitizedEmail))
    then (st, Threw 200 "Invalid email address")
    else
      let user := User.findOne_email (users st) (JS.toLowerCase sanitizedEmail) in
      match user with
      | Some u =>
          if matchPassword u (password body)
          then
            let userObj := User.delete_password (User.toObject u) in
            (st, Json 200 (Identity userObj (generateToken (User._id u) now)))
          else (st, Threw 401 "Invalid email or password")
      | None => (st, Threw 401 "Invalid email or password")
      end.

(* ---------------- Get Current User ---------------- *)
(** [req_user] is [req.user], which the route's [protect] middleware sets. *)
Definition getMe (st : Store) (req_user : option User.doc) : Store * response :=
  match req_user with
  | None => (st, Threw 401 "Not authorized")
  | Some u => (st, Json 200 (Me (User.delete_password (User.toObject u))))
  end.

(* ---------------- Forgot Password ---------------- *)
(** [now] is the clock at the request and [rnd] the draw of [Math.random()]. *)
Definition forgotPassword (st : Store) (body : Body) (now : Z)
    (rnd : PrimFloat.float) : Store * response :=
  if negb (JS.truthy (email body))
  then (st, Threw 200 "Please provide an email")
  else
    let sanitizedEmail := sanitizeInput (email body) in
    if negb (validateEmail (JS.Str sanitizedEmail))
    then (st, Threw 200 "Invalid email address")
    else
      match User.findOne_email (users st) (JS.toLowerCase sanitizedEmail) with
      | None => (st, Json 200 (Ack "If account exists, OTP sent" true))
      | Some _ =>
          let otpCode := JS.floor_random 100000 999999 rnd in
          let otps' :=
            OTP.create (otps st) (JS.toLowerCase sanitizedEmail) otpCode now in
          let text :=
            "Your OTP code is " ++ JS.show otpCode ++ ". Valid for 5 minutes." in
          match sendEmail sanitizedEmail "Password Reset OTP" text with
          | Some err => (mkStore (users st) otps' (outbox st), Threw 200 err)
          | None =>
              (mkStore (users st) otps'
                 ((outbox st) ++
                  [(sanitizedEmail, "Password Reset OTP", text)])%list,
               Json 200 (Ack "OTP sent" true))
          end
      end.

(** [!otpRecord || Date.now() > otpRecord.createdAt.getTime() + 5 * 60 * 1000] *)
Definition otp_refused (otpRecord : option OTP.doc) (now : Z) : bool :=
  match otpRecord with
  | None => true
  | Some r => now >? OTP.createdAt r + 5 * 60 * 1000
  end.

(* ---------------- Validate OTP ---------------- *)
Definition validateOTP (st : Store) (body : Body) (now : Z) : Store * response :=
  let sanitizedEmail := sanitizeInput (email body) in
  let otpRecord := OTP.findOne (otps st) sanitizedEmail (Number (code body)) in
  if otp_refused otpRecord now
  then (st, Threw 200 "Invalid or expired OTP")
  else (st, Json 200 (Ack "OTP validated" true)).

(* ---------------- Reset Password ---------------- *)
Definition resetPassword (st : Store) (body : Body) (now : Z) : Store * response :=
  if negb (JS.truthy (newPassword body)) || negb (JS.truthy (confirmPassword body))
  then (st, Threw 200 "Provide both passwords")
  else
    let sanitizedEmail := sanitizeInput (email body) in
    let otpRecord := OTP.findOne (otps st) sanitizedEmail (Number (code body)) in
    if otp_refused otpRecord now
    then (st, Threw 200 "Invalid or expired OTP")
    else if negb (JS.strict_eq (newPassword body) (confirmPassword body))
    then (st, Threw 200 "Passwords do not match")
    else if negb (validatePassword (newPassword body))
    then (st, Threw 200 "Weak password")
    else
      match User.findOne_email (users st) (JS.toLowerCase sanitizedEmail) with
      | None => (st, Threw 200 "User not found")
      | Some user =>
          (mkStore (User.save_password hashPassword (users st) user
                                       (newPassword body))
                   (otps st) (outbox st),
           Json 200 (Ack "Password reset successfully" true))
      end.

(* ---------------- routes/auth.routes.js ---------------- *)

(** One request to the router, with what the handler reads besides the
    body: the clock, the random draw, and [req.user] for [/me]. *)
Inductive request : Type :=
  | register (body : Body) (now : Z)
  | login (body : Body) (now : Z)
  | me (req_user : option User.doc)
  | forgot_password (body : Body) (now : Z) (rnd : PrimFloat.float)
  | validate_otp (body : Body) (now : Z)
  | reset_password (body : Body) (now : Z)
  | google (body : Body) (now : Z).

Definition handle (st : Store) (rq : request) : Store * response :=
  match rq with
  | register b now => registerUser st b now
  | login b now => loginUser st b now
  | me u => getMe st u
  | forgot_password b now rnd => forgotPassword st b now rnd
  | validate_otp b now => validateOTP st b now
  | reset_password b now => resetPassword st b now
  | google b now => googleAuth st b now
  end.

(** The store after a sequence of requests. *)
Definition run (st : Store) (rqs : list request) : Store :=
  fold_left (fun s rq => fst (handle s rq)) rqs st.

(** The stores the server can be in, starting from empty collections. *)
Inductive reachable : Store -> Prop :=
  | reach_empty : reachable empty_store
  | reach_handle st rq : reachable st -> reachable (fst (handle st rq)).

End Handlers.

(** The record invariant of the credential store: each username matches the
    username format, and no two records share a username or share an email up
    to letter case. *)
Definition username_ok (d : User.doc) : bool := usernameRegex (User.username d).

Fixpoint distinct (keys : list string) : bool :=
  match keys with
  | [] => true
  | k :: r => negb (existsb (String.eqb k) r) && distinct r
  end.

Definition users_ok (us : list User.doc) : bool :=
  forallb username_ok us &&
  distinct (map User.username us) &&
  distinct (map (fun d => JS.toLowerCase (User.email d)) us).

(** An email or username with an upper-case letter in it. *)
Definition has_upper (s : string) : bool := JS.exists_char JS.is_upper s.

(** What the store's identifiers and unique indexes give: no two records
    share an id, a username or an email (compared exactly). *)
Definition keys_unique (st : Store) : Prop :=
  NoDup (map User._id (users st)) /\
  NoDup (map User.username (users st)) /\
  NoDup (map User.email (users st)).

(** [user] with its password replaced. *)
Definition with_password (user : User.doc) (hash : string) : User.doc :=
  User.mkDoc (User._id user) (User.username user) (User.email user) hash
             (User.profilePic user).

(** Every stored one-time code is filed under a lower-cased email. *)
Definition otps_lowercase (st : Store) : Prop :=
  Forall (fun r => has_upper (OTP.email r) = false) (otps st).

(** Every stored one-time code is filed under an email that is its own
    lower-casing and that some account has. *)
Definition otps_known (st : Store) : Prop :=
  Forall (fun r => JS.toLowerCase (OTP.email r) = OTP.email r /\
                   User.findOne_email (users st) (OTP.email r) <> None)
         (otps st).

(** Whether a response is a refusal: a thrown error or the 400 answer. *)
Definition refused (r : response) : bool :=
  match r with
  | Threw _ _ => true
  | Json status _ => status =? 400
  end.

(** The user object inside a payload, if it has one. *)
Definition payload_user (p : payload) : option User.view :=
  match p with
  | Ack _ _ => None
  | Identity user _ => Some user
  | Me user => Some user
  | GoogleSession _ _ user => Some user
  end.

(** A non-empty run of characters of the class [[^\s@]]. *)
Definition atoms (s : string) : Prop :=
  s <> EmptyString /\ JS.forall_chars email_atom s = true.

End Controller.

(** Stand-ins for the collaborators, to run the handlers on examples. *)
Module Stub.

Fixpoint digits (acc : Z) (s : string) : option Z :=
  match s with
  | EmptyString => Some acc
  | String c r =>
      if JS.is_digit c
      then digits (10 * acc + Z.of_N (JS.code_unit c - 48)) r
      else None
  end.

Definition text_of (v : JS.value) : string :=
  match v with
  | JS.Str s => s
  | _ => EmptyString
  end.

(** A token that names the user id and the time it was minted at. *)
Definition stamped (prefix : string) (id : N) (now : Z) : string :=
  prefix ++ JS.show (Z.of_N id) ++ "." ++ JS.show now.

Definition capabilities : Controller.Capabilities := {|
  Controller.StringToNumber := digits 0;
  Controller.hashPassword := fun v => "#" ++ text_of v;
  Controller.matchPassword :=
    fun u v => String.eqb (User.password u) ("#" ++ text_of v);
  Controller.generateToken := stamped "t";
  Controller.jwt_sign := stamped "j";
  Controller.verifyIdToken :=
    fun t now =>
      if now <? 3600000
      then match t with
           | JS.Str "john" => Some ("john@x.io", "John Doe", "p.png")
           | JS.Str "alice" => Some ("Alice@b.co", "alice_g", "a.png")
           | _ => None
           end
      else None;
  Controller.sendEmail := fun _ _ _ => None
|}.

(** A draw of [Math.random()] for which the code is 482913. *)
Definition draw_482913 : PrimFloat.float :=
  PrimFloat.div (JS.double 3829135) (JS.double 10000000).

(** Request bodies. *)
Definition sign_up (u e p : string) : Controller.Body :=
  Controller.mkBody (JS.Str u) (JS.Str e) (JS.Str p) JS.Undefined
                    JS.Undefined JS.Undefined JS.Undefined.

Definition sign_in (e p : string) : Controller.Body :=
  Controller.mkBody JS.Undefined (JS.Str e) (JS.Str p) JS.Undefined
                    JS.Undefined JS.Undefined JS.Undefined.

Definition email_only (e : string) : Controller.Body :=
  Controller.mkBody JS.Undefined (JS.Str e) JS.Undefined JS.Undefined
                    JS.Undefined JS.Undefined JS.Undefined.

Definition otp_form (e : string) (c : Z) (p q : string) : Controller.Body :=
  Controller.mkBody JS.Undefined (JS.Str e) JS.Undefined (JS.Num c)
                    (JS.Str p) (JS.Str q) JS.Undefined.

Definition oauth (t : string) : Controller.Body :=
  Controller.mkBody JS.Undefined JS.Undefined JS.Undefined JS.Undefined
                    JS.Undefined JS.Undefined (JS.Str t).

(** A store with the one account [alice], registered through the router. *)
Definition alice_store : Controller.Store :=
  Controller.run (H := capabilities) Controller.empty_store
    [Controller.register (sign_up "alice" "alice@b.co" "abc123") 0].

(** [alice_store] after a forgot-password request at time 1000 that drew
    code 482913. *)
Definition alice_otp_store : Controller.Store :=
  Controller.run (H := capabilities) alice_store
    [Controller.forgot_password (email_only "alice@b.co") 1000 draw_482913].

(** [alice_otp_store] after a second forgot-password request, at time
    1000000, that drew the same code. *)
Definition alice_twice_store : Controller.Store :=
  Controller.run (H := capabilities) alice_otp_store
    [Controller.forgot_password (email_only "alice@b.co") 1000000
       draw_482913].

(** The same collaborators with the mail transport down. *)
Definition mail_down : Controller.Capabilities := {|
  Controller.StringToNumber := digits 0;
  Controller.hashPassword := fun v => "#" ++ text_of v;
  Controller.matchPassword :=
    fun u v => String.eqb (User.password u) ("#" ++ text_of v);
  Controller.generateToken := stamped "t";
  Controller.jwt_sign := stamped "j";
  Controller.verifyIdToken := fun _ _ => None;
  Controller.sendEmail := fun _ _ _ => Some "connect ECONNREFUSED"
|}.

(** A store with the one account [john_d], registered with a password under
    the email of the Google identity [john]. *)
Definition john_store : Controller.Store :=
  Controller.run (H := capabilities) Controller.empty_store
    [Controller.register (sign_up "john_d" "john@x.io" "secret1") 0].

End Stub.

(* ================================================================= *)
(** ** The client auth slice *)

Module AuthSlice.

(** A slot of the slice state or of an action payload: [null], [undefined]
    (a property the payload does not have) or a value. *)
Inductive slot (A : Type) : Type :=
  | null
  | undefined
  | val (a : A).
Arguments null {A}.
Arguments undefined {A}.
Arguments val {A} a.

Section Slice.

(** The user objects the API returns; the slice never looks inside them. *)
Variable UserObj : Type.

Record State : Type := mkState {
  user : slot UserObj;
  token : slot string;
  loading : bool;
  error : slot string;
  resetSuccess : bool;
  otpSent : bool;
  otpValidated : bool
}.

(** [JSON.stringify] on a user object. *)
Variable stringify : UserObj -> string.

(** The two [localStorage] keys the slice writes, each absent ([None]) or
    holding the string that was stored under it. *)
Record Storage : Type := mkStorage {
  ls_token : option string;
  ls_user : option string
}.

(** The string [setItem] stores for a token: [String(v)]. *)
Definition token_text (v : slot string) : string :=
  match v with
  | null => "null"
  | undefined => "undefined"
  | val t => t
  end.

(** The string [setItem] stores for [JSON.stringify(v)], which is
    [undefined] for an undefined [v]. *)
Definition user_text (v : slot UserObj) : string :=
  match v with
  | null => "null"
  | undefined => "undefined"
  | val u => stringify u
  end.

(** [initialState], from what [localStorage] holds at start-up. *)
Definition initialState (tokenFromStorage : slot string)
    (userFromStorage : slot UserObj) : State :=
  mkState
    (match userFromStorage with val u => val u | _ => null end)
    (match tokenFromStorage with
     | val EmptyString => null
     | val t => val t
     | _ => null
     end)
    false null false false false.

Inductive thunk : Type :=
  | registerUser
  | loginUser
  | getMe
  | forgotPassword
  | validateOTP
  | resetPassword.

(** [action.payload] of a fulfilled thunk or of [setUser], as far as the
    reducers read it: its [user] and [token] properties. *)
Record Payload : Type := mkPayload {
  p_user : slot UserObj;
  p_token : slot string
}.

Inductive action : Type :=
  | pending (t : thunk)
  | fulfilled (t : thunk) (payload : Payload)
  | rejected (t : thunk) (payload : slot string)
  | setUser (payload : Payload)
  | logout
  | clearResetSuccess.

Definition set_loading_error (s : State) (l : bool) (e : slot string) : State :=
  mkState (user s) (token s) l e (resetSuccess s) (otpSent s) (otpValidated s).

(** The reducer [createSlice] builds from [reducers] and [extraReducers]; an
    action with no case leaves the state as it is. *)
Definition reducer (st : State * Storage) (a : action) : State * Storage :=
  let (s, ls) := st in
  match a with
  | setUser p =>
      (mkState (p_user p) (p_token p) (loading s) (error s)
               (resetSuccess s) (otpSent s) (otpValidated s),
       mkStorage (Some (token_text (p_token p))) (Some (user_text (p_user p))))
  | logout =>
      (mkState null null false null false false false, mkStorage None None)
  | clearResetSuccess =>
      (mkState (user s) (token s) (loading s) null false false false, ls)
  (* REGISTER *)
  | pending registerUser => (set_loading_error s true null, ls)
  | fulfilled registerUser p =>
      (mkState (p_user p) (p_token p) false (error s)
               (resetSuccess s) (otpSent s) (otpValidated s),
       mkStorage (Some (token_text (p_token p))) (Some (user_text (p_user p))))
  | rejected registerUser e => (set_loading_error s false e, ls)
  (* LOGIN *)
  | pending loginUser => (set_loading_error s true null, ls)
  | fulfilled loginUser p =>
      (mkState (p_user p) (p_token p) false (error s)
               (resetSuccess s) (otpSent s) (otpValidated s),
       mkStorage (Some (token_text (p_token p))) (Some (user_text (p_user p))))
  | rejected loginUser e => (set_loading_error s false e, ls)
  (* GET ME *)
  | pending getMe => (set_loading_error s true null, ls)
  | fulfilled getMe p =>
      (mkState (p_user p) (token s) false (error s)
               (resetSuccess s) (otpSent s) (otpValidated s), ls)
  | rejected getMe e =>
      (mkState null null false e (resetSuccess s) (otpSent s) (otpValidated s),
       mkStorage None None)
  (* FORGOT / OTP / RESET *)
  | pending forgotPassword =>
      (mkState (user s) (token s) true null (resetSuccess s) false
               (otpValidated s), ls)
  | fulfilled forgotPassword _ =>
      (mkState (user s) (token s) false (error s) (resetSuccess s) true
               (otpValidated s), ls)
  | rejected forgotPassword e => (set_loading_error s false e, ls)
  | fulfilled validateOTP _ =>
      (mkState (user s) (token s) false (error s) (resetSuccess s) (otpSent s)
               true, ls)
  | rejected validateOTP e => (set_loading_error s false e, ls)
  | fulfilled resetPassword _ =>
      (mkState (user s) (token s) false (error s) true (otpSent s)
               (otpValidated s), ls)
  | rejected resetPassword e => (set_loading_error s false e, ls)
  | pending validateOTP => st
  | pending resetPassword => st
  end.

(** The thunks whose [pending] action has a case in [extraReducers]. *)
Definition has_pending_case (t : thunk) : bool :=
  match t with
  | validateOTP | resetPassword => false
  | _ => true
  end.

(* ---------------- Async thunks ---------------- *)

(** How the API call of a thunk ends: it resolves with data, or it throws
    and [error.response?.data?.message] is read off the error. *)
Inductive api_outcome : Type :=
  | resolved (data : Payload)
  | failed (message : slot string).

(** The fallback message of each thunk. *)
Definition fallback (t : thunk) : string :=
  match t with
  | registerUser => "Registration failed"
  | loginUser => "Login failed"
  | getMe => "Get user failed"
  | forgotPassword => "Forgot password failed"
  | validateOTP => "Invalid or expired OTP"
  | resetPassword => "Password reset failed"
  end.

(** [message || fallback] *)
Definition or_fallback (message : slot string) (t : thunk) : string :=
  match message with
  | val (String c r) => String c r
  | _ => fallback t
  end.

(** The action a thunk dispatches when its API call has ended. *)
Definition settle (t : thunk) (o : api_outcome) : action :=
  match o with
  | resolved data => fulfilled t data
  | failed message => rejected t (val (or_fallback message t))
  end.

(** The persisted token is the text of the token of the state, and there
    is none when the state has none. *)
Definition token_synced (st : State * Storage) : Prop :=
  match ls_token (snd st) with
  | None => token (fst st) = null
  | Some t => t = token_text (token (fst st))
  end.

(** The reducer over a sequence of actions. *)
Definition replay (st : State * Storage) (acts : list action) : State * Storage :=
  fold_left reducer acts st.

End Slice.

Arguments reducer {UserObj} stringify st a.
Arguments pending {UserObj} t.
Arguments fulfilled {UserObj} t payload.
Arguments rejected {UserObj} t payload.
Arguments loading {UserObj} s.
Arguments error {UserObj} s.
Arguments mkState {UserObj}.
Arguments token {UserObj} s.
Arguments user {UserObj} s.
Arguments settle {UserObj} t o.
Arguments resolved {UserObj} data.
Arguments failed {UserObj} message.
Arguments token_synced {UserObj} st.
Arguments replay {UserObj} stringify st acts.
Arguments setUser {UserObj} payload.
Arguments logout {UserObj}.
Arguments clearResetSuccess {UserObj}.

End AuthSlice.

(* ================================================================= *)
(** ** client/src/pages/Register.jsx *)

Module RegisterPage.

(** [formData] *)
Record FormData : Type := mkForm {
  username : string;
  email : string;
  password : string
}.

(** The line terminators below U+0100, which [.] does not match. *)
Definition is_line_terminator (c : ascii) : bool :=
  (JS.code_unit c =? 10)%N || (JS.code_unit c =? 13)%N.

(** [.*[p]] matched from the start of [s]: a [p] with no line terminator
    before it. *)
Fixpoint dot_star_then (p : ascii -> bool) (s : string) : bool :=
  match s with
  | EmptyString => false
  | String c r => p c || (negb (is_line_terminator c) && dot_star_then p r)
  end.

(** [/(?=.*[a-zA-Z])(?=.*[0-9])/.test(s)]: both lookaheads hold at some
    position of [s]. *)
Fixpoint letter_and_digit_ahead (s : string) : bool :=
  (dot_star_then JS.is_ascii_letter s && dot_star_then JS.is_digit s) ||
  match s with
  | EmptyString => false
  | String _ r => letter_and_digit_ahead r
  end.

(** [/^[a-zA-Z0-9_]+$/.test(s)] *)
Definition wordRegex (s : string) : bool :=
  match s with
  | EmptyString => false
  | _ => JS.forall_chars JS.is_word s
  end.

(** [errors]: the message under each key, if the key is set. *)
Record Errors : Type := mkErrors {
  err_username : option string;
  err_email : option string;
  err_password : option string
}.

Definition validateForm (formData : FormData) : Errors :=
  mkErrors
    (if JS.length (username formData) <? 3
     then Some "Username must be at least 3 characters long"
     else if JS.length (username formData) >? 20
     then Some "Username must be less than 20 characters"
     else if negb (wordRegex (username formData))
     then Some "Username can only contain letters, numbers, and underscores"
     else None)
    (if negb (Controller.emailRegex (email formData))
     then Some "Please enter a valid email address"
     else None)
    (if JS.length (password formData) <? 6
     then Some "Password must be at least 6 characters long"
     else if negb (letter_and_digit_ahead (password formData))
     then Some "Password must contain at least one letter and one number"
     else None).

(** [Object.keys(errors).length > 0] is false: [handleSubmit] dispatches
    [registerUser(formData)]. *)
Definition submits (formData : FormData) : bool :=
  match validateForm formData with
  | mkErrors None None None => true
  | _ => false
  end.

(** The request body [registerUser(formData)] posts. *)
Definition body_of (formData : FormData) : Controller.Body :=
  Controller.mkBody (JS.Str (username formData)) (JS.Str (email formData))
                    (JS.Str (password formData)) JS.Undefined JS.Undefined
                    JS.Undefined JS.Undefined.

End RegisterPage.

(* ================================================================= *)
(** ** Proof automation *)

(** Settles a property of one character by running through all 256. *)
Ltac by_cases_on c :=
  destruct c as [[] [] [] [] [] [] [] []]; vm_compute;
  try reflexivity; try discriminate.

(** Splits on every test a handler makes. *)
Ltac split_tests :=
  repeat match goal with
         | |- context [if ?b then _ else _] => destruct b eqn:?
         | |- context [match ?x with _ => _ end] => destruct x eqn:?
         end.

(* ================================================================= *)
(** ** Characters and strings *)

Section Strings.

Import JS.

Lemma lower_char_not_upper (c : ascii) : is_upper (lower_char c) = false.
Proof. by_cases_on c. Qed.

Lemma whitespace_not_upper (c : ascii) :
  is_whitespace c = true -> is_upper c = false.
Proof. by_cases_on c. Qed.

Lemma toLowerCase_no_upper (s : string) :
  exists_char is_upper (toLowerCase s) = false.
Proof.
  induction s as [|c r IH]; [reflexivity|].
  cbn [toLowerCase map_chars exists_char].
  rewrite lower_char_not_upper. exact IH.
Qed.

Lemma exists_char_trimStart (p : ascii -> bool) (s : string) :
  (forall c, is_whitespace c = true -> p c = false) ->
  exists_char p (trimStart s) = exists_char p s.
Proof.
  intros Hp. induction s as [|c r IH]; [reflexivity|].
  cbn [trimStart]. destruct (is_whitespace c) eqn:Ews; [|reflexivity].
  cbn [exists_char]. rewrite (Hp c Ews). exact IH.
Qed.

Lemma exists_char_trimEnd (p : ascii -> bool) (s : string) :
  (forall c, is_whitespace c = true -> p c = false) ->
  exists_char p (trimEnd s) = exists_char p s.
Proof.
  intros Hp. induction s as [|c r IH]; [reflexivity|].
  cbn [trimEnd exists_char]. rewrite <- IH.
  destruct (trimEnd r) as [|c' r'] eqn:Er.
  - destruct (is_whitespace c) eqn:Ews; cbn [exists_char].
    + now rewrite (Hp c Ews).
    + reflexivity.
  - reflexivity.
Qed.

Lemma exists_char_trim (p : ascii -> bool) (s : string) :
  (forall c, is_whitespace c = true -> p c = false) ->
  exists_char p (trim s) = exists_char p s.
Proof.
  intros Hp. unfold trim.
  now rewrite exists_char_trimEnd, exists_char_trimStart.
Qed.

Lemma trim_dollar (s : string) :
  trim (String "$" s) = String "$" (trimEnd s).
Proof.
  unfold trim. change (trimStart (String "$" s)) with (String "$" s).
  cbn [trimEnd]. destruct (trimEnd s); reflexivity.
Qed.

End Strings.

(* ================================================================= *)
(** ** Facts about the controller *)

Section ControllerFacts.

Import Controller.

Context `{Capabilities}.

Lemma sanitizeInput_dollar (s : string) :
  sanitizeInput (JS.Str (String "$" s)) = JS.trimEnd s.
Proof. unfold sanitizeInput. rewrite trim_dollar. reflexivity. Qed.

Lemma has_upper_strip_dollar (s : string) :
  has_upper (strip_dollar s) = has_upper s.
Proof.
  destruct s as [|c r]; [reflexivity|].
  unfold strip_dollar. destruct (Ascii.eqb_spec c "$") as [->|_]; reflexivity.
Qed.

Lemma has_upper_sanitizeInput (s : string) :
  has_upper (sanitizeInput (JS.Str s)) = has_upper s.
Proof.
  unfold sanitizeInput. rewrite has_upper_strip_dollar.
  apply exists_char_trim, whitespace_not_upper.
Qed.

Lemma handle_otps (st : Store) (rq : request) :
  otps (fst (handle st rq)) = otps st \/
  exists e c t,
    otps (fst (handle st rq)) = (otps st ++ [OTP.mkDoc (JS.toLowerCase e) c t])%list.
Proof.
  destruct rq; cbn [handle];
    unfold registerUser, loginUser, getMe, forgotPassword, validateOTP,
           resetPassword, googleAuth, OTP.create;
    split_tests; cbn [fst otps]; eauto.
Qed.

Lemma reachable_otps_lowercase (st : Store) :
  reachable st -> otps_lowercase st.
Proof.
  induction 1 as [|st rq Hst IH]; [constructor|].
  unfold otps_lowercase in *.
  destruct (handle_otps st rq) as [-> | (e & c & t & ->)]; [exact IH|].
  apply Forall_app; split; [exact IH|].
  constructor; [|constructor].
  apply toLowerCase_no_upper.
Qed.

Lemma findOne_upper_email (l : list OTP.doc) (e : string) (c : option Z) :
  Forall (fun r => has_upper (OTP.email r) = false) l ->
  has_upper e = true ->
  OTP.findOne l e c = None.
Proof.
  intros Hl He. destruct c as [n|]; [|reflexivity]. cbn [OTP.findOne].
  induction Hl as [|r l Hr _ IH]; [reflexivity|].
  cbn [find]. destruct (String.eqb_spec (OTP.email r) e) as [Heq|_].
  - rewrite Heq in Hr. congruence.
  - exact IH.
Qed.

Lemma handle_users (st : Store) (rq : request) :
  users (fst (handle st rq)) = users st \/
  (exists u e pw pic,
      User.findOne_email (users st) e = None /\
      User.findOne_username (users st) u = None /\
      users (fst (handle st rq)) =
        (users st ++
         [User.mkDoc (User.next_id (users st)) u e (hashPassword pw) pic])%list) \/
  (exists target pw,
      users (fst (handle st rq)) =
        User.save_password hashPassword (users st) target pw).
Proof.
  destruct rq; cbn [handle];
    unfold registerUser, loginUser, getMe, forgotPassword, validateOTP,
           resetPassword, googleAuth, User.create;
    split_tests; cbn [fst users]; auto;
    repeat match goal with
           | E : Some _ = Some _ |- _ => injection E as <- <-
           | E : None = Some _ |- _ => discriminate E
           end;
    try (right; left; do 4 eexists; refine (conj _ (conj _ eq_refl)); eassumption);
    try (right; right; do 2 eexists; reflexivity).
Qed.

Lemma max_id_bound (ids : list N) (n : N) :
  In n ids -> (n <= fold_right N.max 0 ids)%N.
Proof.
  induction ids as [|m ids IH]; cbn [In fold_right]; [tauto|].
  intros [->|Hin]; [lia|]. specialize (IH Hin). lia.
Qed.

Lemma next_id_fresh (us : list User.doc) :
  ~ In (User.next_id us) (map User._id us).
Proof.
  intros Hin. apply max_id_bound in Hin. unfold User.next_id in Hin. lia.
Qed.

Lemma findOne_email_None (us : list User.doc) (e : string) :
  User.findOne_email us e = None -> ~ In e (map User.email us).
Proof.
  intros Hnone Hin. apply in_map_iff in Hin. destruct Hin as (d & <- & Hd).
  apply (find_none _ _ Hnone) in Hd. cbv beta in Hd.
  now rewrite String.eqb_refl in Hd.
Qed.

Lemma findOne_username_None (us : list User.doc) (u : string) :
  User.findOne_username us u = None -> ~ In u (map User.username us).
Proof.
  intros Hnone Hin. apply in_map_iff in Hin. destruct Hin as (d & <- & Hd).
  apply (find_none _ _ Hnone) in Hd. cbv beta in Hd.
  now rewrite String.eqb_refl in Hd.
Qed.

Lemma NoDup_snoc {A : Type} (l : list A) (a : A) :
  NoDup l -> ~ In a l -> NoDup (l ++ [a]).
Proof.
  induction 1 as [|x l Hx Hl IH]; intros Ha; cbn [app].
  - constructor; [tauto | constructor].
  - constructor.
    + rewrite in_app_iff. cbn [In]. intros [Hin|[->|[]]]; [tauto|].
      apply Ha. now left.
    + apply IH. intros Hin. apply Ha. now right.
Qed.

Lemma save_password_keys (us : list User.doc) (target : User.doc)
    (pw : JS.value) :
  map User._id (User.save_password hashPassword us target pw) = map User._id us /\
  map User.username (User.save_password hashPassword us target pw)
    = map User.username us /\
  map User.email (User.save_password hashPassword us target pw)
    = map User.email us.
Proof.
  unfold User.save_password. rewrite !map_map.
  repeat split; apply map_ext; intros d;
    now destruct (User._id d =? User._id target)%N.
Qed.

(** Ids, usernames and emails stay unique in every store the server reaches. *)
Lemma reachable_keys_unique (st : Store) :
  reachable st -> keys_unique st.
Proof.
  induction 1 as [|st rq Hst (Hid & Hname & Hemail)].
  - repeat split; constructor.
  - unfold keys_unique.
    destruct (handle_users st rq)
      as [-> | [(u & e & pw & pic & He & Hu & ->) | (target & pw & ->)]].
    + auto.
    + rewrite !map_app. cbn [map User._id User.username User.email].
      repeat split; apply NoDup_snoc; auto.
      * apply next_id_fresh.
      * now apply findOne_username_None.
      * now apply findOne_email_None.
    + destruct (save_password_keys (users st) target pw) as (-> & -> & ->).
      auto.
Qed.

(** With unique ids, saving a password rewrites the target record and no
    other. *)
Lemma save_password_one_record (us : list User.doc) (target : User.doc)
    (pw : JS.value) :
  NoDup (map User._id us) ->
  In target us ->
  exists before after,
    us = (before ++ target :: after)%list /\
    User.save_password hashPassword us target pw =
      (before ++ with_password target (hashPassword pw) :: after)%list.
Proof.
  intros Hids Hin. destruct (in_split _ _ Hin) as (before & after & ->).
  exists before, after. split; [reflexivity|].
  rewrite map_app in Hids. cbn [map] in Hids.
  assert (Hother : forall l,
             (forall d, In d l -> User._id d <> User._id target) ->
             User.save_password hashPassword l target pw = l).
  { intros l Hl. unfold User.save_password.
    rewrite <- (map_id l) at 2. apply map_ext_in. intros d Hd.
    destruct (N.eqb_spec (User._id d) (User._id target)) as [Heq|_];
      [now apply Hl in Hd | reflexivity]. }
  unfold User.save_password in *. rewrite map_app. cbn [map].
  rewrite N.eqb_refl. f_equal; [|f_equal].
  - apply Hother. intros d Hd Heq.
    apply NoDup_remove_2 in Hids. apply Hids.
    rewrite in_app_iff. left. rewrite <- Heq. now apply in_map.
  - apply Hother. intros d Hd Heq.
    apply NoDup_remove_2 in Hids. apply Hids.
    rewrite in_app_iff. right. rewrite <- Heq. now apply in_map.
Qed.

End ControllerFacts.

(* ================================================================= *)
(** ** The one-time-code flow *)

Section OtpFlow.

Import Controller.

Context `{Capabilities}.

Lemma otp_refused_None (now : Z) : otp_refused None now = true.
Proof. reflexivity. Qed.

Lemma otp_refused_Some (r : OTP.doc) (now : Z) :
  otp_refused (Some r) now = true <-> now > OTP.createdAt r + 5 * 60 * 1000.
Proof.
  cbn [otp_refused]. rewrite Z.gtb_ltb, Z.ltb_lt. lia.
Qed.

Lemma validateOTP_response (st : Store) (body : Body) (now : Z) :
  snd (validateOTP st body now) =
  if otp_refused (OTP.findOne (otps st) (sanitizeInput (email body))
                              (Number (code body))) now
  then Threw 200 "Invalid or expired OTP"
  else Json 200 (Ack "OTP validated" true).
Proof. unfold validateOTP. now destruct (otp_refused _ _). Qed.

Lemma validateOTP_store (st : Store) (body : Body) (now : Z) :
  fst (validateOTP st body now) = st.
Proof. unfold validateOTP. now destruct (otp_refused _ _). Qed.

(** The first match of a lookup is a record of the store that has the
    queried email and code. *)
Lemma findOne_Some (l : list OTP.doc) (e : string) (c : option Z) (r : OTP.doc) :
  OTP.findOne l e c = Some r ->
  In r l /\ OTP.email r = e /\ c = Some (OTP.code r).
Proof.
  destruct c as [n|]; [|discriminate]. cbn [OTP.findOne]. intros Hf.
  apply find_some in Hf. destruct Hf as [Hin Hm].
  apply andb_prop in Hm. destruct Hm as [He Hc].
  apply String.eqb_eq in He. apply Z.eqb_eq in Hc. subst. auto.
Qed.

(** When every record with the queried email and code was created at the
    same instant as [r], the lookup returns a record created then. *)
Lemma findOne_same_instant (l : list OTP.doc) (r : OTP.doc) :
  In r l ->
  (forall r', In r' l -> OTP.email r' = OTP.email r ->
              OTP.code r' = OTP.code r -> OTP.createdAt r' = OTP.createdAt r) ->
  exists r', OTP.findOne l (OTP.email r) (Some (OTP.code r)) = Some r' /\
             OTP.createdAt r' = OTP.createdAt r.
Proof.
  intros Hin Hsame. cbn [OTP.findOne].
  destruct (find _ l) as [r'|] eqn:Hf.
  - exists r'. split; [reflexivity|].
    apply find_some in Hf. destruct Hf as [Hin' Hm].
    apply andb_prop in Hm. destruct Hm as [He Hc].
    apply String.eqb_eq in He. apply Z.eqb_eq in Hc. auto.
  - exfalso. apply (find_none _ _ Hf) in Hin.
    rewrite String.eqb_refl, Z.eqb_refl in Hin. discriminate.
Qed.

Lemma resetPassword_refused (st : Store) (body : Body) (now : Z) :
  JS.truthy (newPassword body) = true ->
  JS.truthy (confirmPassword body) = true ->
  otp_refused (OTP.findOne (otps st) (sanitizeInput (email body))
                           (Number (code body))) now = true ->
  resetPassword st body now = (st, Threw 200 "Invalid or expired OTP").
Proof.
  intros Hn Hc Hr. unfold resetPassword. now rewrite Hn, Hc, Hr.
Qed.

(** What a successful reset went through, and the store it leaves. *)
Lemma resetPassword_success (st : Store) (body : Body) (now : Z) (p : payload)
    (status : Z) :
  snd (resetPassword st body now) = Json status p ->
  otp_refused (OTP.findOne (otps st) (sanitizeInput (email body))
                           (Number (code body))) now = false /\
  JS.strict_eq (newPassword body) (confirmPassword body) = true /\
  validatePassword (newPassword body) = true /\
  exists user,
    User.findOne_email (users st)
      (JS.toLowerCase (sanitizeInput (email body))) = Some user /\
    resetPassword st body now =
    (mkStore (User.save_password hashPassword (users st) user (newPassword body))
             (otps st) (outbox st),
     Json 200 (Ack "Password reset successfully" true)).
Proof.
  unfold resetPassword.
  destruct (negb (JS.truthy (newPassword body)) ||
            negb (JS.truthy (confirmPassword body))); [discriminate|].
  destruct (otp_refused _ now); [discriminate|].
  destruct (JS.strict_eq _ _); [|discriminate].
  destruct (validatePassword _); [|discriminate].
  destruct (User.findOne_email _ _) as [user|]; [|discriminate].
  intros _. cbn [negb]. repeat split. now exists user.
Qed.

Lemma resetPassword_accepts (st : Store) (body : Body) (now : Z) (user : User.doc) :
  JS.truthy (newPassword body) = true ->
  JS.truthy (confirmPassword body) = true ->
  otp_refused (OTP.findOne (otps st) (sanitizeInput (email body))
                           (Number (code body))) now = false ->
  JS.strict_eq (newPassword body) (confirmPassword body) = true ->
  validatePassword (newPassword body) = true ->
  User.findOne_email (users st)
    (JS.toLowerCase (sanitizeInput (email body))) = Some user ->
  resetPassword st body now =
  (mkStore (User.save_password hashPassword (users st) user (newPassword body))
           (otps st) (outbox st),
   Json 200 (Ack "Password reset successfully" true)).
Proof.
  intros Hn Hc Hr He Hv Hu. unfold resetPassword.
  now rewrite Hn, Hc, Hr, He, Hv, Hu.
Qed.

(** Saving a password leaves every record in place and changes nothing but
    the password of the record with the target's id. *)
Lemma save_password_frame (users : list User.doc) (target : User.doc)
    (pw : JS.value) :
  Forall2
    (fun d d' =>
       User._id d' = User._id d /\
       User.username d' = User.username d /\
       User.email d' = User.email d /\
       User.profilePic d' = User.profilePic d /\
       User.password d' =
         if (User._id d =? User._id target)%N
         then hashPassword pw else User.password d)
    users (User.save_password hashPassword users target pw).
Proof.
  induction users as [|d l IH]; cbn [User.save_password map]; constructor.
  - destruct (User._id d =? User._id target)%N; cbn; auto.
  - exact IH.
Qed.

(** C2 (amended): when the lookup of the request's (email, code) pair
    returns a record [r], the first stored record with that email and code,
    [validateOTP] answers "OTP validated" 299 seconds after [r] was created
    and throws "Invalid or expired OTP" 301 seconds after; it throws that
    error exactly when the lookup returns nothing or the clock is past
    [createdAt + 5 minutes] of the record returned, and answers
    "OTP validated" otherwise.  The same holds for any stored record
    matching the pair when all records matching it were created at one
    instant, as when it is the only one. *)
Theorem C2_validateOTP_window (st : Store) (body : Body) :
  let found :=
    OTP.findOne (otps st) (sanitizeInput (email body)) (Number (code body)) in
  (forall now,
      snd (validateOTP st body now) = Threw 200 "Invalid or expired OTP" <->
      found = None \/
      exists r, found = Some r /\ now > OTP.createdAt r + 5 * 60 * 1000) /\
  (forall now,
      snd (validateOTP st body now) = Json 200 (Ack "OTP validated" true) <->
      exists r, found = Some r /\ now <= OTP.createdAt r + 5 * 60 * 1000) /\
  (forall r,
      found = Some r ->
      snd (validateOTP st body (OTP.createdAt r + 299 * 1000)) =
        Json 200 (Ack "OTP validated" true) /\
      snd (validateOTP st body (OTP.createdAt r + 301 * 1000)) =
        Threw 200 "Invalid or expired OTP") /\
  (forall r,
      In r (otps st) ->
      OTP.email r = sanitizeInput (email body) ->
      Number (code body) = Some (OTP.code r) ->
      (forall r', In r' (otps st) -> OTP.email r' = OTP.email r ->
                  OTP.code r' = OTP.code r ->
                  OTP.createdAt r' = OTP.createdAt r) ->
      snd (validateOTP st body (OTP.createdAt r + 299 * 1000)) =
        Json 200 (Ack "OTP validated" true) /\
      snd (validateOTP st body (OTP.createdAt r + 301 * 1000)) =
        Threw 200 "Invalid or expired OTP").
Proof.
  intros found.
  assert (Hthrow : forall now,
             snd (validateOTP st body now) = Threw 200 "Invalid or expired OTP" <->
             otp_refused found now = true).
  { intros now. rewrite validateOTP_response. fold found.
    destruct (otp_refused found now); split; congruence. }
  assert (Hok : forall now,
             snd (validateOTP st body now) = Json 200 (Ack "OTP validated" true) <->
             otp_refused found now = false).
  { intros now. rewrite validateOTP_response. fold found.
    destruct (otp_refused found now); split; congruence. }
  assert (Hwin : forall r, found = Some r ->
             otp_refused found (OTP.createdAt r + 299 * 1000) = false /\
             otp_refused found (OTP.createdAt r + 301 * 1000) = true).
  { intros r ->. split.
    - apply not_true_is_false. rewrite otp_refused_Some. lia.
    - apply otp_refused_Some. lia. }
  split; [|split; [|split]].
  - intros now. rewrite Hthrow. split.
    + destruct found as [r|]; [|now left].
      intros Hr. right. exists r. split; [reflexivity|].
      now apply otp_refused_Some.
    + intros [->|(r & -> & Hlate)]; [reflexivity|].
      now apply otp_refused_Some.
  - intros now. rewrite Hok. split.
    + destruct found as [r|]; [|discriminate].
      intros Hr. exists r. split; [reflexivity|].
      apply not_true_iff_false in Hr. rewrite otp_refused_Some in Hr. lia.
    + intros (r & -> & Hin).
      apply not_true_is_false. rewrite otp_refused_Some. lia.
  - intros r Hr. split; [apply Hok | apply Hthrow]; now apply Hwin.
  - intros r Hin Hemail Hcode Hsame.
    destruct (findOne_same_instant (otps st) r Hin Hsame) as (r' & Hf & Ht).
    assert (Hfound : found = Some r').
    { unfold found. now rewrite <- Hemail, Hcode. }
    rewrite <- Ht. split; [apply Hok | apply Hthrow]; now apply Hwin.
Qed.

(** C10: when the clock reads exactly [createdAt + 300000] ms, [validateOTP]
    still answers "OTP validated" and [resetPassword] does not refuse the
    code (with both passwords given, equal and strong and the account present
    it resets the password); one millisecond later both throw
    "Invalid or expired OTP". *)
Theorem C10_boundary_is_accepted (st : Store) (body : Body) (r : OTP.doc) :
  OTP.findOne (otps st) (sanitizeInput (email body)) (Number (code body))
    = Some r ->
  let now := OTP.createdAt r + 300000 in
  snd (validateOTP st body now) = Json 200 (Ack "OTP validated" true) /\
  snd (validateOTP st body (now + 1)) = Threw 200 "Invalid or expired OTP" /\
  snd (resetPassword st body now) <> Threw 200 "Invalid or expired OTP" /\
  (JS.truthy (newPassword body) = true ->
   JS.truthy (confirmPassword body) = true ->
   (forall user,
       JS.strict_eq (newPassword body) (confirmPassword body) = true ->
       validatePassword (newPassword body) = true ->
       User.findOne_email (users st)
         (JS.toLowerCase (sanitizeInput (email body))) = Some user ->
       snd (resetPassword st body now) =
         Json 200 (Ack "Password reset successfully" true)) /\
   snd (resetPassword st body (now + 1)) = Threw 200 "Invalid or expired OTP").
Proof.
  intros Hfound now.
  assert (Hat : otp_refused (Some r) now = false).
  { apply not_true_is_false. rewrite otp_refused_Some. unfold now. lia. }
  assert (Hafter : otp_refused (Some r) (now + 1) = true).
  { apply otp_refused_Some. unfold now. lia. }
  split; [|split; [|split]].
  - now rewrite validateOTP_response, Hfound, Hat.
  - now rewrite validateOTP_response, Hfound, Hafter.
  - unfold resetPassword. rewrite Hfound, Hat.
    destruct (negb _ || negb _); [discriminate|].
    destruct (negb (JS.strict_eq _ _)); [discriminate|].
    destruct (negb (validatePassword _)); [discriminate|].
    destruct (User.findOne_email _ _); discriminate.
  - intros Hn Hc. split.
    + intros user He Hv Hu.
      rewrite (resetPassword_accepts st body now user); auto.
      now rewrite Hfound.
    + rewrite resetPassword_refused; auto. now rewrite Hfound.
Qed.

(** C9: in any store the server can reach, a forgot-password request with an
    email that has an upper-case letter, followed by [validateOTP] with that
    same email, throws "Invalid or expired OTP" whatever code is given, and
    so does [resetPassword] once both passwords are given: the code was filed
    under the lower-cased email and is looked up under the email as typed. *)
Theorem C9_uppercase_email_round_trip_fails (st : Store) (body : Body)
    (e : string) (now : Z) (rnd : PrimFloat.float) (now' : Z) :
  reachable st ->
  email body = JS.Str e ->
  has_upper e = true ->
  let st' := fst (forgotPassword st body now rnd) in
  snd (validateOTP st' body now') = Threw 200 "Invalid or expired OTP" /\
  (JS.truthy (newPassword body) = true ->
   JS.truthy (confirmPassword body) = true ->
   snd (resetPassword st' body now') = Threw 200 "Invalid or expired OTP") /\
  (validateEmail (JS.Str (sanitizeInput (email body))) = true ->
   User.findOne_email (users st)
     (JS.toLowerCase (sanitizeInput (email body))) <> None ->
   In (OTP.mkDoc (JS.toLowerCase (sanitizeInput (email body)))
                 (JS.floor_random 100000 999999 rnd) now)
      (otps st')).
Proof.
  intros Hst He Hup st'.
  assert (Hlow : otps_lowercase st').
  { apply reachable_otps_lowercase.
    exact (reach_handle st (forgot_password body now rnd) Hst). }
  assert (Hnone : forall c,
             OTP.findOne (otps st') (sanitizeInput (email body)) c = None).
  { intros c. apply findOne_upper_email; [exact Hlow|].
    rewrite He, has_upper_sanitizeInput. exact Hup. }
  split; [|split].
  - now rewrite validateOTP_response, Hnone.
  - intros Hn Hc. rewrite resetPassword_refused; auto. now rewrite Hnone.
  - intros Hvalid Huser. unfold st', forgotPassword.
    rewrite He in *. cbn [JS.truthy].
    destruct e as [|c e']; [discriminate|]. cbn [negb].
    rewrite Hvalid. cbn [negb].
    destruct (User.findOne_email _ _) as [u|]; [|congruence].
    unfold OTP.create.
    destruct (sendEmail _ _ _); cbn [fst otps];
      apply in_or_app; right; left; reflexivity.
Qed.

(** C3: a [resetPassword] call that answers with success leaves the OTP store
    and the outbox as they were, so the record it matched is still there and
    still the one a lookup returns; in the credential store every record
    keeps its place, id, username, email and picture, and only a record with
    the target user's id has its password replaced, by the hash of the new
    one.  In a store the server can reach that is the target record alone.
    [validateOTP] returns the store it was given. *)
Theorem C3_reset_changes_only_the_password (st : Store) (body : Body) (now : Z) :
  snd (resetPassword st body now) =
    Json 200 (Ack "Password reset successfully" true) ->
  let st' := fst (resetPassword st body now) in
  otps st' = otps st /\
  outbox st' = outbox st /\
  (exists r,
      OTP.findOne (otps st) (sanitizeInput (email body)) (Number (code body))
        = Some r /\
      In r (otps st') /\
      OTP.findOne (otps st') (sanitizeInput (email body)) (Number (code body))
        = Some r) /\
  (exists target,
      User.findOne_email (users st)
        (JS.toLowerCase (sanitizeInput (email body))) = Some target /\
      Forall2
        (fun d d' =>
           User._id d' = User._id d /\
           User.username d' = User.username d /\
           User.email d' = User.email d /\
           User.profilePic d' = User.profilePic d /\
           User.password d' =
             if (User._id d =? User._id target)%N
             then hashPassword (newPassword body) else User.password d)
        (users st) (users st')) /\
  (reachable st ->
   exists before target after,
     User.findOne_email (users st)
       (JS.toLowerCase (sanitizeInput (email body))) = Some target /\
     users st = (before ++ target :: after)%list /\
     users st' =
       (before ++
        with_password target (hashPassword (newPassword body)) :: after)%list) /\
  (forall st0 body0 now0, fst (validateOTP st0 body0 now0) = st0).
Proof.
  intros Hok st'.
  destruct (resetPassword_success st body now _ _ Hok)
    as (Hotp & _ & _ & target & Htarget & Hrun).
  unfold st'. rewrite Hrun. cbn [fst otps outbox users].
  split; [reflexivity|]. split; [reflexivity|]. split; [|split; [|split]].
  - destruct (OTP.findOne _ _ _) as [r|] eqn:Hf; [|discriminate].
    exists r. split; [reflexivity|]. split; [|reflexivity].
    now apply findOne_Some in Hf.
  - exists target. split; [exact Htarget|]. apply save_password_frame.
  - intros Hst. destruct (reachable_keys_unique st Hst) as (Hids & _).
    assert (Hin : In target (users st)).
    { unfold User.findOne_email in Htarget. now apply find_some in Htarget. }
    destruct (save_password_one_record (users st) target (newPassword body)
                Hids Hin) as (before & after & Hsplit & Hsave).
    exists before, target, after. auto.
  - apply validateOTP_store.
Qed.

End OtpFlow.

Section OtpFlowExamples.

Import Controller.

Lemma C2_validateOTP_window_witness :
  let body := Stub.otp_form "alice@b.co" 482913 EmptyString EmptyString in
  snd (validateOTP (H := Stub.capabilities) Stub.alice_otp_store body
                   (1000 + 299 * 1000)) =
    Json 200 (Ack "OTP validated" true) /\
  snd (validateOTP (H := Stub.capabilities) Stub.alice_otp_store body
                   (1000 + 301 * 1000)) =
    Threw 200 "Invalid or expired OTP".
Proof.
  intros body.
  exact (proj1 (proj2 (proj2
           (C2_validateOTP_window (H := Stub.capabilities)
              Stub.alice_otp_store body)))
           (OTP.mkDoc "alice@b.co" 482913 1000) eq_refl).
Defined.

Lemma C10_boundary_is_accepted_witness :
  let body := Stub.otp_form "alice@b.co" 482913 "newpass1" "newpass1" in
  snd (validateOTP (H := Stub.capabilities) Stub.alice_otp_store body 301000) =
    Json 200 (Ack "OTP validated" true) /\
  snd (resetPassword (H := Stub.capabilities) Stub.alice_otp_store body 301000) =
    Json 200 (Ack "Password reset successfully" true) /\
  snd (resetPassword (H := Stub.capabilities) Stub.alice_otp_store body 301001) =
    Threw 200 "Invalid or expired OTP".
Proof.
  intros body.
  pose proof (C10_boundary_is_accepted (H := Stub.capabilities)
                Stub.alice_otp_store body
                (OTP.mkDoc "alice@b.co" 482913 1000) eq_refl)
    as (Hv & _ & _ & Hr).
  destruct (Hr eq_refl eq_refl) as (Hok & Hlate).
  split; [exact Hv|]. split; [|exact Hlate].
  exact (Hok (User.mkDoc 1 "alice" "alice@b.co" "#abc123" None)
             eq_refl eq_refl eq_refl).
Defined.

Lemma alice_store_reachable :
  reachable (H := Stub.capabilities) Stub.alice_store.
Proof.
  exact (reach_handle (H := Stub.capabilities) _
           (register (Stub.sign_up "alice" "alice@b.co" "abc123") 0) reach_empty).
Qed.

Lemma C9_uppercase_email_round_trip_fails_witness :
  let body := Stub.otp_form "Alice@b.co" 482913 "newpass1" "newpass1" in
  let st' := fst (forgotPassword (H := Stub.capabilities) Stub.alice_store body
                                 1000 Stub.draw_482913) in
  In (OTP.mkDoc "alice@b.co" 482913 1000) (otps st') /\
  snd (validateOTP (H := Stub.capabilities) st' body 2000) =
    Threw 200 "Invalid or expired OTP" /\
  snd (resetPassword (H := Stub.capabilities) st' body 2000) =
    Threw 200 "Invalid or expired OTP".
Proof.
  intros body st'.
  pose proof (C9_uppercase_email_round_trip_fails (H := Stub.capabilities)
                Stub.alice_store body "Alice@b.co" 1000 Stub.draw_482913 2000
                alice_store_reachable eq_refl eq_refl)
    as (Hv & Hr & Hin).
  split; [|split].
  - apply Hin; [reflexivity | discriminate].
  - exact Hv.
  - exact (Hr eq_refl eq_refl).
Defined.

Lemma C3_reset_changes_only_the_password_witness :
  let body := Stub.otp_form "alice@b.co" 482913 "newpass1" "newpass1" in
  let st' := fst (resetPassword (H := Stub.capabilities) Stub.alice_otp_store
                                body 2000) in
  otps st' = otps Stub.alice_otp_store /\
  In (OTP.mkDoc "alice@b.co" 482913 1000) (otps st') /\
  users st' = [User.mkDoc 1 "alice" "alice@b.co" "#newpass1" None].
Proof.
  intros body st'.
  pose proof (C3_reset_changes_only_the_password (H := Stub.capabilities)
                Stub.alice_otp_store body 2000 eq_refl)
    as (Hotps & _ & _ & _ & _ & _).
  split; [exact Hotps|]. split; [|reflexivity].
  unfold st'. rewrite Hotps. left. reflexivity.
Defined.

Lemma alice_twice_store_reachable :
  reachable (H := Stub.capabilities) Stub.alice_twice_store.
Proof.
  exact (reach_handle (H := Stub.capabilities) _
           (forgot_password (Stub.email_only "alice@b.co") 1000000
                            Stub.draw_482913)
           (reach_handle (H := Stub.capabilities) _
              (forgot_password (Stub.email_only "alice@b.co") 1000
                               Stub.draw_482913)
              alice_store_reachable)).
Qed.

(** C2 (as stated, refuted): after two forgot-password requests for one
    account that draw the same code, at times 1000 and 1000000, the newer
    record has the email and code of the request, yet [validateOTP] called
    299 seconds after that record was created throws
    "Invalid or expired OTP": the lookup returns the older record, which has
    expired. *)
Lemma C2_newer_record_with_same_code_is_refused :
  reachable (H := Stub.capabilities) Stub.alice_twice_store /\
  In (OTP.mkDoc "alice@b.co" 482913 1000000) (otps Stub.alice_twice_store) /\
  sanitizeInput
    (email (Stub.otp_form "alice@b.co" 482913 EmptyString EmptyString)) =
    "alice@b.co" /\
  Number (H := Stub.capabilities)
    (code (Stub.otp_form "alice@b.co" 482913 EmptyString EmptyString)) =
    Some 482913 /\
  snd (validateOTP (H := Stub.capabilities) Stub.alice_twice_store
         (Stub.otp_form "alice@b.co" 482913 EmptyString EmptyString)
         (1000000 + 299 * 1000)) =
    Threw 200 "Invalid or expired OTP".
Proof.
  split; [exact alice_twice_store_reachable|].
  split; [right; left; reflexivity|].
  repeat split.
Qed.

End OtpFlowExamples.

(* ================================================================= *)
(** ** Accounts: register, login, Google sign-in, forgot password *)

Section Accounts.

Import Controller.

Context `{Capabilities}.

Lemma create_fresh (us : list User.doc) (u e : string) (pw : JS.value)
    (pic : option string) :
  User.findOne_email us e = None ->
  User.findOne_username us u = None ->
  User.create hashPassword us u e pw pic =
  Some ((us ++ [User.mkDoc (User.next_id us) u e (hashPassword pw) pic])%list,
        User.mkDoc (User.next_id us) u e (hashPassword pw) pic).
Proof. intros He Hu. unfold User.create. now rewrite He, Hu. Qed.

(** A registration that passes every check appends one record, built from
    the sanitized username and the lower-cased sanitized email. *)
Lemma registerUser_creates (st : Store) (body : Body) (now : Z) :
  JS.truthy (username body) = true ->
  JS.truthy (email body) = true ->
  JS.truthy (password body) = true ->
  validateUsername (JS.Str (sanitizeInput (username body))) = true ->
  validateEmail (JS.Str (sanitizeInput (email body))) = true ->
  validatePassword (password body) = true ->
  User.findOne_email (users st)
    (JS.toLowerCase (sanitizeInput (email body))) = None ->
  User.findOne_username (users st) (sanitizeInput (username body)) = None ->
  let user :=
    User.mkDoc (User.next_id (users st)) (sanitizeInput (username body))
               (JS.toLowerCase (sanitizeInput (email body)))
               (hashPassword (password body)) None in
  registerUser st body now =
  (mkStore (users st ++ [user])%list (otps st) (outbox st),
   Json 201 (Identity (User.delete_password (User.toObject user))
                      (generateToken (User._id user) now))).
Proof.
  intros Hu He Hp Hvu Hve Hvp Hne Hnu user. unfold registerUser.
  rewrite Hu, He, Hp, Hvu, Hve, Hvp, Hne, Hnu. cbn [negb orb].
  now rewrite (create_fresh _ _ _ _ _ Hne Hnu).
Qed.

(** C6: for request bodies with a well-formed email and a password, a login
    whose email belongs to no account and a login whose email belongs to an
    account but whose password does not match both throw the same error,
    status 401 with "Invalid email or password", and leave the store alone. *)
Theorem C6_login_failures_are_identical (st1 st2 : Store) (body1 body2 : Body)
    (now1 now2 : Z) (user : User.doc) :
  JS.truthy (email body1) = true -> JS.truthy (password body1) = true ->
  JS.truthy (email body2) = true -> JS.truthy (password body2) = true ->
  validateEmail (JS.Str (sanitizeInput (email body1))) = true ->
  validateEmail (JS.Str (sanitizeInput (email body2))) = true ->
  User.findOne_email (users st1)
    (JS.toLowerCase (sanitizeInput (email body1))) = None ->
  User.findOne_email (users st2)
    (JS.toLowerCase (sanitizeInput (email body2))) = Some user ->
  matchPassword user (password body2) = false ->
  loginUser st1 body1 now1 = (st1, Threw 401 "Invalid email or password") /\
  loginUser st2 body2 now2 = (st2, Threw 401 "Invalid email or password") /\
  snd (loginUser st1 body1 now1) = snd (loginUser st2 body2 now2).
Proof.
  intros He1 Hp1 He2 Hp2 Hv1 Hv2 Habsent Hpresent Hwrong.
  assert (H1 : loginUser st1 body1 now1 = (st1, Threw 401 "Invalid email or password")).
  { unfold loginUser. now rewrite He1, Hp1, Hv1, Habsent. }
  assert (H2 : loginUser st2 body2 now2 = (st2, Threw 401 "Invalid email or password")).
  { unfold loginUser. now rewrite He2, Hp2, Hv2, Hpresent, Hwrong. }
  now rewrite H1, H2.
Qed.

(** C1 (the handler at work): for a well-formed email that belongs to no
    account in one store and to an account in another, [forgotPassword]
    answers the first with the message "If account exists, OTP sent" and the
    second with something else: "OTP sent" when the mail goes out, a thrown
    error when it does not.  Both answers have status 200 and [success]
    true, but they are not the same answer. *)
Theorem C1_forgotPassword_answers_differ (st1 st2 : Store) (body : Body)
    (now : Z) (rnd : PrimFloat.float) :
  JS.truthy (email body) = true ->
  validateEmail (JS.Str (sanitizeInput (email body))) = true ->
  User.findOne_email (users st1)
    (JS.toLowerCase (sanitizeInput (email body))) = None ->
  User.findOne_email (users st2)
    (JS.toLowerCase (sanitizeInput (email body))) <> None ->
  snd (forgotPassword st1 body now rnd) =
    Json 200 (Ack "If account exists, OTP sent" true) /\
  (snd (forgotPassword st2 body now rnd) = Json 200 (Ack "OTP sent" true) \/
   exists err, snd (forgotPassword st2 body now rnd) = Threw 200 err) /\
  snd (forgotPassword st1 body now rnd) <> snd (forgotPassword st2 body now rnd).
Proof.
  intros He Hv Habsent Hpresent.
  unfold forgotPassword. rewrite He, Hv, Habsent. cbn [negb snd].
  destruct (User.findOne_email (users st2) _) as [u|]; [|congruence].
  destruct (sendEmail _ _ _) as [err|]; cbn [snd].
  - split; [reflexivity|]. split; [right; now exists err | discriminate].
  - split; [reflexivity|]. split; [now left | discriminate].
Qed.

Lemma forallb_snoc_false {A : Type} (p : A -> bool) (l : list A) (a : A) :
  p a = false -> forallb p (l ++ [a]) = false.
Proof.
  intros Ha. rewrite forallb_app. cbn [forallb]. rewrite Ha.
  now rewrite andb_false_r.
Qed.

(** C4 (the handler at work): when the identity token verifies and the
    handler answers with success, the answer holds a session token signed
    for the user's id and the user's record as stored, password field
    included; for an account that existed before, that is the stored
    password hash. *)
Theorem C4_googleAuth_answer_includes_password (st : Store) (body : Body)
    (now : Z) (email name picture : string) :
  verifyIdToken (token body) now = Some (email, name, picture) ->
  (forall user,
      User.findOne_email (users st) email = Some user ->
      googleAuth st body now =
      (st, Json 200 (GoogleSession true (jwt_sign (User._id user) now)
                       (User.mkView (User._id user) (User.username user)
                          (User.email user) (Some (User.password user))
                          (User.profilePic user))))) /\
  (forall status p,
      snd (googleAuth st body now) = Json status p ->
      status = 400 \/
      exists user,
        In user (users (fst (googleAuth st body now))) /\
        p = GoogleSession true (jwt_sign (User._id user) now)
              (User.mkView (User._id user) (User.username user)
                 (User.email user) (Some (User.password user))
                 (User.profilePic user))).
Proof.
  intros Hverify. split.
  - intros user Hfound. unfold googleAuth.
    rewrite Hverify, Hfound. destruct st. reflexivity.
  - intros status p. unfold googleAuth. rewrite Hverify.
    destruct (User.findOne_email (users st) email) as [user|] eqn:Hfound.
    + cbn [snd fst users]. intros [= <- <-]. right. exists user.
      split; [|reflexivity].
      unfold User.findOne_email in Hfound. now apply find_some in Hfound.
    + unfold User.create. rewrite Hfound.
      destruct (User.findOne_username (users st) name) eqn:Hname.
      * cbn [snd]. intros [= <- _]. now left.
      * cbn [snd fst users]. intros [= <- <-]. right.
        exists (User.mkDoc (User.next_id (users st)) name email
                  (hashPassword (JS.Str EmptyString)) (Some picture)).
        split; [|reflexivity].
        apply in_or_app. right. now left.
Qed.

(** C5 (the handler at work): a Google sign-in for an email and a display
    name the store does not hold appends a record whose username is the
    display name as Google gave it; when that name does not match the
    username format, the credential store no longer satisfies the record
    invariant. *)
Theorem C5_googleAuth_stores_any_display_name (st : Store) (body : Body)
    (now : Z) (email name picture : string) :
  verifyIdToken (token body) now = Some (email, name, picture) ->
  User.findOne_email (users st) email = None ->
  User.findOne_username (users st) name = None ->
  usernameRegex name = false ->
  users (fst (googleAuth st body now)) =
    (users st ++ [User.mkDoc (User.next_id (users st)) name email
                             (hashPassword (JS.Str EmptyString))
                             (Some picture)])%list /\
  users_ok (users (fst (googleAuth st body now))) = false.
Proof.
  intros Hverify Hemail Hname Hformat.
  assert (Husers : users (fst (googleAuth st body now)) =
            (users st ++ [User.mkDoc (User.next_id (users st)) name email
                            (hashPassword (JS.Str EmptyString))
                            (Some picture)])%list).
  { unfold googleAuth. rewrite Hverify, Hemail.
    now rewrite (create_fresh _ _ _ _ _ Hemail Hname). }
  split; [exact Husers|].
  rewrite Husers. unfold users_ok.
  rewrite forallb_snoc_false; [reflexivity|exact Hformat].
Qed.

(** C7 (amended): a username or email that begins with [$] is not refused.
    [sanitizeInput] trims it and drops that one [$]; when what is left
    passes the format, strength and uniqueness checks, [registerUser]
    answers 201 and appends a record whose username is the sanitized
    username and whose email is the lower-cased sanitized email, that is,
    the value after the [$] with trailing whitespace removed. *)
Theorem C7_register_strips_leading_dollar (st : Store) (body : Body)
    (now : Z) (s : string) :
  username body = JS.Str (String "$" s) \/ email body = JS.Str (String "$" s) ->
  JS.truthy (username body) = true ->
  JS.truthy (email body) = true ->
  JS.truthy (password body) = true ->
  validateUsername (JS.Str (sanitizeInput (username body))) = true ->
  validateEmail (JS.Str (sanitizeInput (email body))) = true ->
  validatePassword (password body) = true ->
  User.findOne_email (users st)
    (JS.toLowerCase (sanitizeInput (email body))) = None ->
  User.findOne_username (users st) (sanitizeInput (username body)) = None ->
  let user :=
    User.mkDoc (User.next_id (users st)) (sanitizeInput (username body))
               (JS.toLowerCase (sanitizeInput (email body)))
               (hashPassword (password body)) None in
  registerUser st body now =
    (mkStore (users st ++ [user])%list (otps st) (outbox st),
     Json 201 (Identity (User.delete_password (User.toObject user))
                        (generateToken (User._id user) now))) /\
  (username body = JS.Str (String "$" s) ->
   User.username user = JS.trimEnd s) /\
  (email body = JS.Str (String "$" s) ->
   User.email user = JS.toLowerCase (JS.trimEnd s)).
Proof.
  intros _ Hu He Hp Hvu Hve Hvp Hne Hnu user.
  split; [now apply registerUser_creates|].
  unfold user. cbn [User.username User.email].
  split; intros ->; now rewrite sanitizeInput_dollar.
Qed.

End Accounts.

Section AccountsExamples.

Import Controller.

Lemma C6_login_failures_are_identical_witness :
  snd (loginUser (H := Stub.capabilities) Stub.alice_store
                 (Stub.sign_in "bob@b.co" "abc123") 5000) =
  snd (loginUser (H := Stub.capabilities) Stub.alice_store
                 (Stub.sign_in "Alice@b.co" "wrong1") 6000).
Proof.
  exact (proj2 (proj2
    (C6_login_failures_are_identical (H := Stub.capabilities)
       Stub.alice_store Stub.alice_store
       (Stub.sign_in "bob@b.co" "abc123") (Stub.sign_in "Alice@b.co" "wrong1")
       5000 6000 (User.mkDoc 1 "alice" "alice@b.co" "#abc123" None)
       eq_refl eq_refl eq_refl eq_refl eq_refl eq_refl
       eq_refl eq_refl eq_refl))).
Defined.

Lemma C1_forgotPassword_answers_differ_witness :
  let body := Stub.email_only "alice@b.co" in
  snd (forgotPassword (H := Stub.capabilities) empty_store body 1000
                      Stub.draw_482913) =
    Json 200 (Ack "If account exists, OTP sent" true) /\
  snd (forgotPassword (H := Stub.capabilities) Stub.alice_store body 1000
                      Stub.draw_482913) =
    Json 200 (Ack "OTP sent" true) /\
  snd (forgotPassword (H := Stub.capabilities) empty_store body 1000
                      Stub.draw_482913) <>
  snd (forgotPassword (H := Stub.capabilities) Stub.alice_store body 1000
                      Stub.draw_482913).
Proof.
  intros body.
  assert (Hpresent :
            User.findOne_email (users Stub.alice_store)
              (JS.toLowerCase (sanitizeInput (email body))) <> None)
    by discriminate.
  pose proof (C1_forgotPassword_answers_differ (H := Stub.capabilities)
                empty_store Stub.alice_store body 1000 Stub.draw_482913
                eq_refl eq_refl eq_refl Hpresent)
    as (Habsent & _ & Hdiffer).
  split; [exact Habsent|]. split; [reflexivity | exact Hdiffer].
Defined.

Lemma C4_googleAuth_answer_includes_password_witness :
  googleAuth (H := Stub.capabilities) Stub.john_store (Stub.oauth "john")
             5000 =
  (Stub.john_store,
   Json 200 (GoogleSession true "j1.5000"
               (User.mkView 1 "john_d" "john@x.io" (Some "#secret1") None))).
Proof.
  exact (proj1
    (C4_googleAuth_answer_includes_password (H := Stub.capabilities)
       Stub.john_store (Stub.oauth "john") 5000 "john@x.io" "John Doe" "p.png"
       eq_refl)
    (User.mkDoc 1 "john_d" "john@x.io" "#secret1" None) eq_refl).
Defined.

Lemma C5_googleAuth_stores_any_display_name_witness :
  let st := run (H := Stub.capabilities) empty_store
                [google (Stub.oauth "john") 5000] in
  users st = [User.mkDoc 1 "John Doe" "john@x.io" "#" (Some "p.png")] /\
  users_ok (users st) = false.
Proof.
  exact (C5_googleAuth_stores_any_display_name (H := Stub.capabilities)
           empty_store (Stub.oauth "john") 5000 "john@x.io" "John Doe" "p.png"
           eq_refl eq_refl eq_refl eq_refl).
Defined.

(** Registration itself can store a username outside the format: the check
    runs on the trimmed value, the record gets the value as sanitized. *)
Example register_keeps_space_after_dollar :
  let st := run (H := Stub.capabilities) empty_store
                [register (Stub.sign_up "$ abc" "a@b.co" "abc123") 0] in
  users st = [User.mkDoc 1 " abc" "a@b.co" "#abc123" None] /\
  users_ok (users st) = false.
Proof. split; reflexivity. Qed.

(** Emails can coincide up to letter case, when Google reports an email in
    another case than the registered one. *)
Example google_email_in_other_case :
  let st := run (H := Stub.capabilities) Stub.alice_store
                [google (Stub.oauth "alice") 5000] in
  map User.email (users st) = ["alice@b.co"; "Alice@b.co"] /\
  users_ok (users st) = false.
Proof. split; reflexivity. Qed.

(** C7 (as stated, refuted): a registration whose username is [$abc], and
    one whose email is [$a@b.co], are answered 201 and each adds a record to
    an empty store. *)
Lemma C7_dollar_value_is_registered :
  registerUser (H := Stub.capabilities) empty_store
    (Stub.sign_up "$abc" "a@b.co" "abc123") 0 =
  (mkStore [User.mkDoc 1 "abc" "a@b.co" "#abc123" None] [] [],
   Json 201 (Identity (User.mkView 1 "abc" "a@b.co" None None) "t1.0")) /\
  registerUser (H := Stub.capabilities) empty_store
    (Stub.sign_up "abc" "$a@b.co" "abc123") 0 =
  (mkStore [User.mkDoc 1 "abc" "a@b.co" "#abc123" None] [] [],
   Json 201 (Identity (User.mkView 1 "abc" "a@b.co" None None) "t1.0")).
Proof. split; reflexivity. Qed.

Lemma C7_register_strips_leading_dollar_witness :
  registerUser (H := Stub.capabilities) Stub.alice_store
    (Stub.sign_up "$bob_7  " "Bob@B.co" "abc123") 5000 =
  (mkStore [User.mkDoc 1 "alice" "alice@b.co" "#abc123" None;
            User.mkDoc 2 "bob_7" "bob@b.co" "#abc123" None] [] [],
   Json 201 (Identity (User.mkView 2 "bob_7" "bob@b.co" None None) "t2.5000")).
Proof.
  exact (proj1
    (C7_register_strips_leading_dollar (H := Stub.capabilities)
       Stub.alice_store (Stub.sign_up "$bob_7  " "Bob@B.co" "abc123") 5000
       "bob_7  "
       (or_introl eq_refl) eq_refl eq_refl eq_refl eq_refl eq_refl eq_refl
       eq_refl eq_refl)).
Defined.

End AccountsExamples.

(* ================================================================= *)
(** ** The client auth slice *)

Section SliceFacts.

Import AuthSlice.

Variable UserObj : Type.
Variable stringify : UserObj -> string.

(** Where [extraReducers] has a case, it mirrors the request: pending sets
    [loading] and clears [error], fulfilled and rejected clear [loading], and
    rejected stores its payload in [error]. *)
Lemma slice_mirrors_handled_cases (st : State UserObj * Storage) (t : thunk)
    (p : Payload UserObj) (e : slot string) :
  (has_pending_case t = true ->
   loading (fst (reducer stringify st (pending t))) = true /\
   error (fst (reducer stringify st (pending t))) = null) /\
  loading (fst (reducer stringify st (fulfilled t p))) = false /\
  loading (fst (reducer stringify st (rejected t e))) = false /\
  error (fst (reducer stringify st (rejected t e))) = e.
Proof.
  destruct st as [s ls]. destruct t; cbn; repeat split; try discriminate.
Qed.

(** C8 (the reducer at work): the pending actions of [validateOTP] and
    [resetPassword] have no case, so the reducer returns the state it was
    given: a [loading] that was false stays false and an [error] left by an
    earlier rejection stays in place. *)
Theorem C8_otp_and_reset_pending_are_ignored :
  (forall st : State UserObj * Storage,
      reducer stringify st (pending validateOTP) = st /\
      reducer stringify st (pending resetPassword) = st) /\
  (let s := mkState null null false (val "Invalid or expired OTP")
                    false true false in
   let st : State UserObj * Storage := (s, mkStorage None None) in
   loading (fst (reducer stringify st (pending validateOTP))) = false /\
   error (fst (reducer stringify st (pending validateOTP))) = val "Invalid or expired OTP" /\
   loading (fst (reducer stringify st (pending resetPassword))) = false /\
   error (fst (reducer stringify st (pending resetPassword))) = val "Invalid or expired OTP").
Proof.
  split.
  - intros [s ls]. split; reflexivity.
  - cbn. repeat split.
Qed.

End SliceFacts.

(* ================================================================= *)
(** ** More on strings *)

Section MoreStrings.

Import JS.

Lemma lower_char_idem (c : ascii) : lower_char (lower_char c) = lower_char c.
Proof. by_cases_on c. Qed.

Lemma toLowerCase_idem (s : string) :
  toLowerCase (toLowerCase s) = toLowerCase s.
Proof.
  induction s as [|c r IH]; [reflexivity|].
  cbn [toLowerCase map_chars]. rewrite lower_char_idem. f_equal. exact IH.
Qed.

Lemma word_not_whitespace (c : ascii) : is_word c = true -> is_whitespace c = false.
Proof. by_cases_on c. Qed.

Lemma word_not_dollar (c : ascii) : is_word c = true -> Ascii.eqb c "$" = false.
Proof. by_cases_on c. Qed.

Lemma forall_chars_app (p : ascii -> bool) (s t : string) :
  forall_chars p (s ++ t) = forall_chars p s && forall_chars p t.
Proof.
  induction s as [|c r IH]; [reflexivity|].
  cbn [append forall_chars]. now rewrite IH, andb_assoc.
Qed.

Lemma forall_chars_impl (p q : ascii -> bool) (s : string) :
  (forall c, p c = true -> q c = true) ->
  forall_chars p s = true -> forall_chars q s = true.
Proof.
  intros Hpq. induction s as [|c r IH]; [reflexivity|].
  cbn [forall_chars]. intros Hs. apply andb_prop in Hs. destruct Hs as [Hc Hr].
  now rewrite (Hpq c Hc), IH.
Qed.

Lemma trimEnd_head (c : ascii) (r : string) :
  is_whitespace c = false -> trimEnd (String c r) = String c (trimEnd r).
Proof. intros Hc. cbn [trimEnd]. rewrite Hc. now destruct (trimEnd r). Qed.

Lemma trimEnd_idem (s : string) : trimEnd (trimEnd s) = trimEnd s.
Proof.
  induction s as [|c r IH]; [reflexivity|].
  cbn [trimEnd]. destruct (trimEnd r) as [|c' r'] eqn:Er.
  - destruct (is_whitespace c) eqn:Ec; [reflexivity|].
    cbn [trimEnd]. now rewrite Ec.
  - cbn [trimEnd] in *. now rewrite IH.
Qed.

Lemma trimStart_clean (s : string) : starts_clean (trimStart s).
Proof.
  induction s as [|c r IH]; [exact I|].
  cbn [trimStart]. destruct (is_whitespace c) eqn:Ec; [exact IH | exact Ec].
Qed.

Lemma trimStart_of_clean (s : string) : starts_clean s -> trimStart s = s.
Proof. destruct s as [|c r]; [reflexivity|]. cbn. now intros ->. Qed.

Lemma trimEnd_clean (s : string) : starts_clean s -> starts_clean (trimEnd s).
Proof.
  destruct s as [|c r]; [trivial|]. cbn [starts_clean]. intros Hc.
  now rewrite (trimEnd_head c r Hc).
Qed.

Lemma trim_clean (s : string) : starts_clean (trim s).
Proof. apply trimEnd_clean, trimStart_clean. Qed.

(** Trimming twice is trimming once. *)
Lemma trim_idem (s : string) : trim (trim s) = trim s.
Proof.
  unfold trim at 1. rewrite (trimStart_of_clean (trim s) (trim_clean s)).
  unfold trim. apply trimEnd_idem.
Qed.

Lemma trimEnd_no_whitespace (s : string) :
  forall_chars (fun c => negb (is_whitespace c)) s = true -> trimEnd s = s.
Proof.
  induction s as [|c r IH]; [reflexivity|].
  cbn [forall_chars]. intros Hs. apply andb_prop in Hs. destruct Hs as [Hc Hr].
  apply negb_true_iff in Hc. rewrite (trimEnd_head c r Hc). now rewrite IH.
Qed.

Lemma trim_no_whitespace (s : string) :
  forall_chars (fun c => negb (is_whitespace c)) s = true -> trim s = s.
Proof.
  intros Hs. unfold trim. rewrite trimStart_of_clean.
  - now apply trimEnd_no_whitespace.
  - destruct s as [|c r]; [exact I|]. cbn [forall_chars] in Hs.
    apply andb_prop in Hs. destruct Hs as [Hc _]. now apply negb_true_iff in Hc.
Qed.

Lemma length_lower (s : string) : JS.length (toLowerCase s) = JS.length s.
Proof.
  unfold JS.length. f_equal.
  induction s as [|c r IH]; [reflexivity|].
  cbn [toLowerCase map_chars String.length]. f_equal. exact IH.
Qed.

End MoreStrings.

(* ================================================================= *)
(** ** The validation helpers *)

Section Validation.

Import Controller.

Lemma append_nonempty_r (s t : string) : t <> EmptyString -> (s ++ t) <> EmptyString.
Proof. destruct s; cbn [append]; [auto | discriminate]. Qed.

Lemma dot_before_end_spec (s : string) :
  dot_before_end s = true <->
  exists x y, s = x ++ String "." y /\ y <> EmptyString.
Proof.
  induction s as [|c r IH].
  - split; [discriminate|]. intros (x & y & Hs & _). destruct x; discriminate.
  - destruct r as [|c' r'].
    + split; [discriminate|]. intros (x & y & Hs & Hy).
      destruct x as [|cx x]; cbn [append] in Hs.
      * injection Hs as _ Hs. now subst y.
      * injection Hs as _ Hs. destruct x; discriminate.
    + change (dot_before_end (String c (String c' r')))
        with (Ascii.eqb c "." || dot_before_end (String c' r')).
      rewrite orb_true_iff, IH. split.
      * intros [Hc | (x & y & Hs & Hy)].
        -- apply Ascii.eqb_eq in Hc. subst c.
           exists EmptyString, (String c' r'). split; [reflexivity|discriminate].
        -- exists (String c x), y. split; [|exact Hy].
           cbn [append]. now rewrite Hs.
      * intros (x & y & Hs & Hy). destruct x as [|cx x]; cbn [append] in Hs.
        -- injection Hs as -> _. left. reflexivity.
        -- injection Hs as _ Hs. right. now exists x, y.
Qed.

Lemma email_domain_spec (d : string) :
  email_domain d = true <->
  exists a b, d = a ++ String "." b /\ atoms a /\ atoms b.
Proof.
  unfold email_domain, atoms. split.
  - intros Hd. apply andb_prop in Hd. destruct Hd as [Hall Hdot].
    destruct d as [|c r]; [discriminate|].
    apply dot_before_end_spec in Hdot. destruct Hdot as (x & y & -> & Hy).
    exists (String c x), y. split; [reflexivity|].
    change (String c (x ++ String "." y)) with (String c x ++ String "." y) in Hall.
    rewrite forall_chars_app in Hall. apply andb_prop in Hall.
    destruct Hall as [Ha Hb]. cbn [JS.forall_chars] in Hb.
    apply andb_prop in Hb. destruct Hb as [_ Hb].
    repeat split; auto. discriminate.
  - intros (a & b & -> & (Ha & Hfa) & (Hb & Hfb)).
    rewrite forall_chars_app, Hfa. cbn [JS.forall_chars]. rewrite Hfb.
    cbn [andb]. change (email_atom ".") with true. cbn [andb].
    destruct a as [|c x]; [congruence|]. cbn [append].
    apply dot_before_end_spec. now exists x, b.
Qed.

Lemma email_local_spec (seen : bool) (s : string) :
  email_local seen s = true <->
  exists l d, s = l ++ String "@" d /\
              JS.forall_chars email_atom l = true /\
              (seen = true \/ l <> EmptyString) /\
              email_domain d = true.
Proof.
  revert seen. induction s as [|c r IH]; intros seen.
  - split; [discriminate|]. intros (l & d & Hs & _). destruct l; discriminate.
  - cbn [email_local]. destruct (Ascii.eqb_spec c "@") as [->|Hc].
    + rewrite andb_true_iff. split.
      * intros [Hseen Hd]. exists EmptyString, r. auto.
      * intros (l & d & Hs & Hl & Hne & Hd).
        destruct l as [|cl l]; cbn [append] in Hs.
        -- injection Hs as ->. destruct Hne as [Hne|Hne]; [auto | congruence].
        -- injection Hs as <- _. discriminate Hl.
    + destruct (JS.is_whitespace c) eqn:Ews.
      * split; [discriminate|]. intros (l & d & Hs & Hl & _).
        destruct l as [|cl l]; cbn [append] in Hs.
        -- injection Hs as -> _. congruence.
        -- injection Hs as <- _. cbn [JS.forall_chars] in Hl.
           unfold email_atom in Hl. now rewrite Ews in Hl.
      * rewrite IH. split.
        -- intros (l & d & -> & Hl & _ & Hd). exists (String c l), d.
           repeat split; auto.
           ++ cbn [JS.forall_chars]. rewrite Hl. unfold email_atom. rewrite Ews.
              destruct (Ascii.eqb_spec c "@"); [congruence | reflexivity].
           ++ right. discriminate.
        -- intros (l & d & Hs & Hl & _ & Hd).
           destruct l as [|cl l]; cbn [append] in Hs.
           ++ injection Hs as -> _. congruence.
           ++ injection Hs as <- ->. exists l, d.
              cbn [JS.forall_chars] in Hl. apply andb_prop in Hl.
              repeat split; tauto.
Qed.

(** X1: the email pattern accepts a string exactly when it is a local part,
    an [@], a domain label, a dot and a last part, each of the three a
    non-empty run of characters that are neither whitespace nor [@]. *)
Theorem emailRegex_spec (s : string) :
  emailRegex s = true <->
  exists l a b, s = l ++ String "@" (a ++ String "." b) /\
                atoms l /\ atoms a /\ atoms b.
Proof.
  unfold emailRegex. rewrite email_local_spec. split.
  - intros (l & d & -> & Hl & [Hseen|Hne] & Hd); [discriminate|].
    apply email_domain_spec in Hd. destruct Hd as (a & b & -> & Ha & Hb).
    exists l, a, b. unfold atoms. auto.
  - intros (l & a & b & -> & (Hne & Hl) & Ha & Hb).
    exists l, (a ++ String "." b). repeat split; auto.
    apply email_domain_spec. now exists a, b.
Qed.

End Validation.

(* ================================================================= *)
(** ** How the handlers compose *)

Section Flows.

Import Controller.

Context `{Capabilities}.

Lemma find_snoc {A : Type} (f : A -> bool) (l : list A) (a : A) :
  find f (l ++ [a]) =
  match find f l with
  | Some x => Some x
  | None => if f a then Some a else None
  end.
Proof.
  induction l as [|x l IH]; cbn [app find]; [reflexivity|].
  now destruct (f x).
Qed.

Lemma find_map_same {A : Type} (f : A -> bool) (g : A -> A) (l : list A) :
  (forall x, f (g x) = f x) ->
  find f (map g l) = option_map g (find f l).
Proof.
  intros Hfg. induction l as [|x l IH]; [reflexivity|].
  cbn [map find]. rewrite Hfg. now destruct (f x).
Qed.

Lemma findOne_email_new (us : list User.doc) (d : User.doc) :
  User.findOne_email us (User.email d) = None ->
  User.findOne_email (us ++ [d]) (User.email d) = Some d.
Proof.
  unfold User.findOne_email. intros Hnone.
  now rewrite find_snoc, Hnone, String.eqb_refl.
Qed.

Lemma findOne_email_appended (us : list User.doc) (i : N) (u e h : string)
    (pic : option string) :
  User.findOne_email us e = None ->
  User.findOne_email (us ++ [User.mkDoc i u e h pic]) e =
  Some (User.mkDoc i u e h pic).
Proof. exact (findOne_email_new us (User.mkDoc i u e h pic)). Qed.

Lemma findOne_email_kept (us : list User.doc) (d : User.doc) (e : string) :
  User.findOne_email us e <> None ->
  User.findOne_email (us ++ [d]) e <> None.
Proof.
  unfold User.findOne_email. intros Hsome. rewrite find_snoc.
  now destruct (find _ us).
Qed.

Lemma findOne_email_saved (us : list User.doc) (target : User.doc)
    (pw : JS.value) (e : string) :
  User.findOne_email (User.save_password hashPassword us target pw) e =
  option_map
    (fun d => if (User._id d =? User._id target)%N
              then with_password d (hashPassword pw) else d)
    (User.findOne_email us e).
Proof.
  unfold User.findOne_email, User.save_password.
  apply (find_map_same (fun d => String.eqb (User.email d) e)).
  intros d. now destruct (User._id d =? User._id target)%N.
Qed.

(** What a successful registration went through, and the store it leaves. *)
Lemma registerUser_success (st : Store) (body : Body) (now : Z) (status : Z)
    (p : payload) :
  snd (registerUser st body now) = Json status p ->
  validateUsername (JS.Str (sanitizeInput (username body))) = true /\
  validateEmail (JS.Str (sanitizeInput (email body))) = true /\
  validatePassword (password body) = true /\
  User.findOne_email (users st)
    (JS.toLowerCase (sanitizeInput (email body))) = None /\
  User.findOne_username (users st) (sanitizeInput (username body)) = None /\
  JS.truthy (email body) = true /\
  JS.truthy (password body) = true /\
  let user :=
    User.mkDoc (User.next_id (users st)) (sanitizeInput (username body))
               (JS.toLowerCase (sanitizeInput (email body)))
               (hashPassword (password body)) None in
  registerUser st body now =
  (mkStore (users st ++ [user])%list (otps st) (outbox st),
   Json 201 (Identity (User.delete_password (User.toObject user))
                      (generateToken (User._id user) now))).
Proof.
  unfold registerUser.
  destruct (JS.truthy (username body)); [|discriminate].
  destruct (JS.truthy (email body)); [|discriminate].
  destruct (JS.truthy (password body)); [|discriminate].
  cbn [negb orb].
  destruct (validateUsername _); [|discriminate].
  destruct (validateEmail _); [|discriminate].
  destruct (validatePassword _); [|discriminate].
  cbn [negb].
  destruct (User.findOne_email _ _) eqn:He; [discriminate|].
  destruct (User.findOne_username _ _) eqn:Hu; [discriminate|].
  rewrite (create_fresh _ _ _ _ _ He Hu). intros _. repeat split.
Qed.

Lemma strip_dollar_none (s : string) :
  (forall t, s <> String "$" t) -> strip_dollar s = s.
Proof.
  intros Hs. destruct s as [|c r]; [reflexivity|]. cbn [strip_dollar].
  destruct (Ascii.eqb_spec c "$") as [->|_]; [|reflexivity].
  now contradiction (Hs r).
Qed.

(** X2: a registration that succeeds appends one record whose username,
    once trimmed, matches the username format; when the submitted username
    does not begin with [$] after trimming, the stored username is the
    trimmed input and matches the format as it stands. *)
Theorem register_stored_username (st : Store) (body : Body) (now : Z)
    (status : Z) (p : payload) :
  snd (registerUser st body now) = Json status p ->
  exists user,
    users (fst (registerUser st body now)) = (users st ++ [user])%list /\
    usernameRegex (JS.trim (User.username user)) = true /\
    (forall s,
        username body = JS.Str s ->
        (forall t, JS.trim s <> String "$" t) ->
        User.username user = JS.trim s /\
        usernameRegex (User.username user) = true).
Proof.
  intros Hok.
  destruct (registerUser_success st body now status p Hok)
    as (Hvu & _ & _ & _ & _ & _ & _ & Hrun).
  rewrite Hrun. cbn [fst users]. eexists. split; [reflexivity|].
  cbn [User.username]. split; [exact Hvu|].
  intros s Hs Hnodollar. rewrite Hs in *. cbn [sanitizeInput] in *.
  rewrite (strip_dollar_none _ Hnodollar) in *. split; [reflexivity|].
  cbn [validateUsername] in Hvu. now rewrite trim_idem in Hvu.
Qed.

(** X3: [sanitizeInput] drops one [$] only.  A registration that succeeds
    with an email beginning with two of them stores an email that still
    begins with [$]. *)
Theorem register_keeps_second_dollar (st : Store) (body : Body) (now : Z)
    (s : string) (status : Z) (p : payload) :
  email body = JS.Str (String "$" (String "$" s)) ->
  snd (registerUser st body now) = Json status p ->
  sanitizeInput (email body) = String "$" (JS.trimEnd s) /\
  exists user,
    In user (users (fst (registerUser st body now))) /\
    User.email user = String "$" (JS.toLowerCase (JS.trimEnd s)).
Proof.
  intros He Hok.
  assert (Hsan : sanitizeInput (email body) = String "$" (JS.trimEnd s)).
  { rewrite He, sanitizeInput_dollar.
    apply trimEnd_head. reflexivity. }
  split; [exact Hsan|].
  destruct (registerUser_success st body now status p Hok)
    as (_ & _ & _ & _ & _ & _ & _ & Hrun).
  rewrite Hrun. cbn [fst users]. eexists. split.
  - apply in_or_app. right. left. reflexivity.
  - cbn [User.email]. rewrite Hsan. reflexivity.
Qed.

(** X6: once a registration has succeeded, a second registration whose
    email is the same up to letter case is refused with
    "Email already registered", whatever its username, and changes nothing. *)
Theorem register_same_email_again (st : Store) (body body' : Body)
    (now now' : Z) (status : Z) (p : payload) :
  snd (registerUser st body now) = Json status p ->
  JS.truthy (username body') = true ->
  JS.truthy (email body') = true ->
  JS.truthy (password body') = true ->
  validateUsername (JS.Str (sanitizeInput (username body'))) = true ->
  validateEmail (JS.Str (sanitizeInput (email body'))) = true ->
  validatePassword (password body') = true ->
  JS.toLowerCase (sanitizeInput (email body')) =
    JS.toLowerCase (sanitizeInput (email body)) ->
  let st' := fst (registerUser st body now) in
  registerUser st' body' now' = (st', Threw 200 "Email already registered").
Proof.
  intros Hok Hu He Hp Hvu Hve Hvp Hsame st'.
  destruct (registerUser_success st body now status p Hok)
    as (_ & _ & _ & Hnew & _ & _ & _ & Hrun).
  unfold st'. rewrite Hrun. cbn [fst]. unfold registerUser at 1.
  rewrite Hu, He, Hp, Hvu, Hve, Hvp, Hsame. cbn [negb orb users].
  now rewrite (findOne_email_appended _ _ _ _ _ _ Hnew).
Qed.

(** X7: when [matchPassword] accepts the password a stored hash was made
    from, a login with the email and password of a registration that has
    just succeeded answers 200 with the user object the registration
    returned and a token minted at the time of the login for the same user
    id, and changes nothing. *)
Theorem register_then_login (st : Store) (body : Body) (now now' : Z)
    (status : Z) (p : payload) :
  (forall d pw, User.password d = hashPassword pw -> matchPassword d pw = true) ->
  snd (registerUser st body now) = Json status p ->
  let st' := fst (registerUser st body now) in
  exists view,
    status = 201 /\
    p = Identity view (generateToken (User.v_id view) now) /\
    loginUser st' body now' =
      (st', Json 200 (Identity view (generateToken (User.v_id view) now'))).
Proof.
  intros Hmatch Hok st'.
  destruct (registerUser_success st body now status p Hok)
    as (_ & Hve & _ & Hnew & _ & He & Hp & Hrun).
  rewrite Hrun in Hok. cbn [snd] in Hok. injection Hok as <- <-.
  exists (User.mkView (User.next_id (users st)) (sanitizeInput (username body))
            (JS.toLowerCase (sanitizeInput (email body))) None None).
  split; [reflexivity|]. split; [reflexivity|].
  unfold st'. rewrite Hrun. cbn [fst]. unfold loginUser.
  rewrite He, Hp, Hve. cbn [negb orb users].
  rewrite (findOne_email_appended _ _ _ _ _ _ Hnew).
  now rewrite Hmatch.
Qed.

(** X4: a request that is refused, by a thrown error or by the 400 answer,
    leaves the accounts and the outbox as they were; unless it is a
    forgot-password request it leaves the whole store as it was. *)
Theorem refused_request_changes_nothing (st : Store) (rq : request) :
  refused (snd (handle st rq)) = true ->
  users (fst (handle st rq)) = users st /\
  outbox (fst (handle st rq)) = outbox st /\
  match rq with
  | forgot_password _ _ _ => True
  | _ => fst (handle st rq) = st
  end.
Proof.
  destruct rq; cbn [handle];
    unfold registerUser, loginUser, getMe, forgotPassword, validateOTP,
           resetPassword, googleAuth;
    split_tests; cbn [fst snd users outbox refused];
    try discriminate; auto.
Qed.

(** X5: when the account exists and sending the mail throws, the
    forgot-password request fails with the mail error, yet the new code has
    been stored: it is the last record of the OTP store. *)
Theorem forgotPassword_mail_failure_keeps_code (st : Store) (body : Body)
    (now : Z) (rnd : PrimFloat.float) (err : string) :
  JS.truthy (email body) = true ->
  validateEmail (JS.Str (sanitizeInput (email body))) = true ->
  User.findOne_email (users st)
    (JS.toLowerCase (sanitizeInput (email body))) <> None ->
  (forall text,
      sendEmail (sanitizeInput (email body)) "Password Reset OTP" text
        = Some err) ->
  snd (forgotPassword st body now rnd) = Threw 200 err /\
  otps (fst (forgotPassword st body now rnd)) =
    (otps st ++
     [OTP.mkDoc (JS.toLowerCase (sanitizeInput (email body)))
                (JS.floor_random 100000 999999 rnd) now])%list /\
  outbox (fst (forgotPassword st body now rnd)) = outbox st.
Proof.
  intros He Hv Huser Hmail. unfold forgotPassword.
  rewrite He, Hv. cbn [negb].
  destruct (User.findOne_email _ _); [|congruence].
  rewrite Hmail. cbn [fst snd otps outbox]. auto.
Qed.

(** X12: the user object in an answer to register, login or get-me never
    carries a password. *)
Theorem identity_answers_hide_password (st : Store) (rq : request)
    (status : Z) (p : payload) (v : User.view) :
  (forall body now, rq <> google body now) ->
  snd (handle st rq) = Json status p ->
  payload_user p = Some v ->
  User.v_password v = None.
Proof.
  intros Hrq. destruct rq; cbn [handle];
    try (now contradiction (Hrq body now));
    unfold registerUser, loginUser, getMe, forgotPassword, validateOTP,
           resetPassword, User.create;
    split_tests; cbn [snd]; try discriminate;
    intros [= <- <-]; cbn [payload_user]; try discriminate;
    now intros [= <-].
Qed.

(** X14: signing in with Google twice creates no second record: when a
    sign-in has succeeded and the same identity token still verifies to the
    same identity at a later time, the second sign-in leaves the store as
    the first left it and answers with the same user object and a session
    token signed at that later time for the same user id. *)
Theorem googleAuth_twice (st : Store) (body : Body) (now now' : Z)
    (success : bool) (session : string) (view : User.view) :
  verifyIdToken (token body) now' = verifyIdToken (token body) now ->
  snd (googleAuth st body now) = Json 200 (GoogleSession success session view) ->
  let st' := fst (googleAuth st body now) in
  session = jwt_sign (User.v_id view) now /\
  googleAuth st' body now' =
    (st', Json 200 (GoogleSession true (jwt_sign (User.v_id view) now') view)).
Proof.
  intros Hsame. unfold googleAuth. rewrite Hsame.
  destruct (verifyIdToken (token body) now) as [[[e n] pic]|]; [|discriminate].
  destruct (User.findOne_email (users st) e) as [user|] eqn:Hfound.
  - cbn [snd fst users otps outbox]. intros [= <- <- <-].
    split; [reflexivity|]. now rewrite Hfound.
  - unfold User.create. rewrite Hfound.
    destruct (User.findOne_username (users st) n); [discriminate|].
    cbn [snd fst users otps outbox]. intros [= <- <- <-].
    split; [reflexivity|].
    now rewrite (findOne_email_appended _ _ _ _ _ _ Hfound).
Qed.

(** X8: when [matchPassword] accepts the password a stored hash was made
    from, a login with a well-formed email and the new password succeeds
    right after a reset for that email has succeeded, and it answers with
    the account the reset changed. *)
Theorem reset_then_login (st : Store) (body body' : Body) (now now' : Z) :
  (forall d pw, User.password d = hashPassword pw -> matchPassword d pw = true) ->
  snd (resetPassword st body now) =
    Json 200 (Ack "Password reset successfully" true) ->
  email body' = email body ->
  password body' = newPassword body ->
  JS.truthy (email body) = true ->
  validateEmail (JS.Str (sanitizeInput (email body))) = true ->
  let st' := fst (resetPassword st body now) in
  exists target,
    User.findOne_email (users st)
      (JS.toLowerCase (sanitizeInput (email body))) = Some target /\
    loginUser st' body' now' =
    (st', Json 200
            (Identity
               (User.mkView (User._id target) (User.username target)
                            (User.email target) None (User.profilePic target))
               (generateToken (User._id target) now'))).
Proof.
  intros Hmatch Hok He Hp Htruthy Hvalid st'.
  destruct (resetPassword_success st body now _ _ Hok)
    as (_ & _ & Hstrong & target & Htarget & Hrun).
  exists target. split; [exact Htarget|].
  assert (Hnew : JS.truthy (newPassword body) = true).
  { destruct (newPassword body) as [| | | |[|c s]]; try discriminate.
    reflexivity. }
  unfold st'. rewrite Hrun. cbn [fst]. unfold loginUser.
  rewrite He, Hp, Htruthy, Hnew, Hvalid. cbn [negb orb users].
  rewrite findOne_email_saved, Htarget. cbn [option_map].
  rewrite N.eqb_refl, Hmatch; reflexivity.
Qed.

(** X9: a reset does not use the code up.  After a reset has succeeded, a
    second reset with the same email and code, and any pair of equal strong
    passwords, succeeds as well while the clock is within five minutes of
    the code's creation. *)
Theorem reset_code_can_be_replayed (st : Store) (body body' : Body)
    (now now' : Z) :
  snd (resetPassword st body now) =
    Json 200 (Ack "Password reset successfully" true) ->
  email body' = email body ->
  code body' = code body ->
  JS.truthy (newPassword body') = true ->
  JS.truthy (confirmPassword body') = true ->
  JS.strict_eq (newPassword body') (confirmPassword body') = true ->
  validatePassword (newPassword body') = true ->
  let st' := fst (resetPassword st body now) in
  exists r,
    OTP.findOne (otps st) (sanitizeInput (email body)) (Number (code body))
      = Some r /\
    (now' <= OTP.createdAt r + 5 * 60 * 1000 ->
     snd (resetPassword st' body' now') =
       Json 200 (Ack "Password reset successfully" true)).
Proof.
  intros Hok He Hc Hn Hcf Heq Hstrong st'.
  destruct (resetPassword_success st body now _ _ Hok)
    as (Hotp & _ & _ & target & Htarget & Hrun).
  destruct (OTP.findOne (otps st) _ _) as [r|] eqn:Hfound; [|discriminate].
  exists r. split; [reflexivity|]. intros Hnow.
  unfold st'. rewrite Hrun. cbn [fst].
  rewrite (resetPassword_accepts _ body' now'
             (with_password target (hashPassword (newPassword body))));
    auto.
  - cbn [otps]. rewrite He, Hc, Hfound.
    apply not_true_is_false. rewrite otp_refused_Some. lia.
  - cbn [users]. rewrite He, findOne_email_saved, Htarget. cbn [option_map].
    now rewrite N.eqb_refl.
Qed.

(** X10: for an account whose email is submitted in lower case, the code a
    forgot-password request has just issued validates, given as a number,
    until five minutes after the request, provided no older record holds
    the same email and code. *)
Theorem forgot_then_validate (st : Store) (body body' : Body)
    (now : Z) (rnd : PrimFloat.float) (now' : Z) :
  JS.truthy (email body) = true ->
  validateEmail (JS.Str (sanitizeInput (email body))) = true ->
  User.findOne_email (users st)
    (JS.toLowerCase (sanitizeInput (email body))) <> None ->
  JS.toLowerCase (sanitizeInput (email body)) = sanitizeInput (email body) ->
  OTP.findOne (otps st) (sanitizeInput (email body))
    (Some (JS.floor_random 100000 999999 rnd)) = None ->
  email body' = email body ->
  code body' = JS.Num (JS.floor_random 100000 999999 rnd) ->
  now' <= now + 5 * 60 * 1000 ->
  let st' := fst (forgotPassword st body now rnd) in
  validateOTP st' body' now' = (st', Json 200 (Ack "OTP validated" true)).
Proof.
  intros Htruthy Hvalid Huser Hlower Hfresh He Hc Hnow st'.
  assert (Hotps : otps st' =
            (otps st ++
             [OTP.mkDoc (sanitizeInput (email body))
                        (JS.floor_random 100000 999999 rnd) now])%list).
  { unfold st', forgotPassword. rewrite Htruthy, Hvalid. cbn [negb].
    destruct (User.findOne_email _ _); [|congruence].
    rewrite Hlower. unfold OTP.create.
    now destruct (sendEmail _ _ _). }
  unfold validateOTP. rewrite He, Hc, Hotps. cbn [Number OTP.findOne] in *.
  rewrite find_snoc, Hfresh. cbn [OTP.email OTP.code].
  rewrite String.eqb_refl, Z.eqb_refl. cbn [andb otp_refused OTP.createdAt].
  destruct (Z.gtb_spec now' (now + 5 * 60 * 1000)); [lia | reflexivity].
Qed.

Lemma handle_otps_account (st : Store) (rq : request) :
  otps (fst (handle st rq)) = otps st \/
  exists e c t,
    otps (fst (handle st rq)) =
      (otps st ++ [OTP.mkDoc (JS.toLowerCase e) c t])%list /\
    User.findOne_email (users st) (JS.toLowerCase e) <> None.
Proof.
  destruct rq; cbn [handle];
    unfold registerUser, loginUser, getMe, forgotPassword, validateOTP,
           resetPassword, googleAuth, OTP.create;
    split_tests; cbn [fst otps]; auto;
    right; do 3 eexists; (split; [reflexivity | congruence]).
Qed.

Lemma handle_keeps_emails (st : Store) (rq : request) (e : string) :
  User.findOne_email (users st) e <> None ->
  User.findOne_email (users (fst (handle st rq))) e <> None.
Proof.
  intros Hsome.
  destruct (handle_users st rq)
    as [-> | [(u & e' & pw & pic & _ & _ & ->) | (target & pw & ->)]].
  - exact Hsome.
  - now apply findOne_email_kept.
  - rewrite findOne_email_saved.
    now destruct (User.findOne_email (users st) e).
Qed.

Lemma reachable_otps_known (st : Store) : reachable st -> otps_known st.
Proof.
  induction 1 as [|st rq Hst IH]; [constructor|].
  unfold otps_known in *.
  assert (Hold : Forall
            (fun r => JS.toLowerCase (OTP.email r) = OTP.email r /\
                      User.findOne_email (users (fst (handle st rq)))
                                         (OTP.email r) <> None)
            (otps st)).
  { eapply Forall_impl; [|exact IH]. cbv beta. intros r [Hlow Hacc].
    split; [exact Hlow|]. now apply handle_keeps_emails. }
  destruct (handle_otps_account st rq) as [-> | (e & c & t & -> & Hacc)];
    [exact Hold|].
  apply Forall_app. split; [exact Hold|]. constructor; [|constructor].
  cbn [OTP.email]. split; [apply toLowerCase_idem|].
  now apply handle_keeps_emails.
Qed.

(** X13: in every store the server can reach, each one-time code is filed
    under the lower-case email of an existing account, so a reset never
    ends in "User not found". *)
Theorem reset_always_finds_the_user (st : Store) (body : Body) (now : Z)
    (status : Z) :
  reachable st ->
  otps_known st /\
  snd (resetPassword st body now) <> Threw status "User not found".
Proof.
  intros Hst. pose proof (reachable_otps_known st Hst) as Hknown.
  split; [exact Hknown|].
  unfold resetPassword.
  destruct (negb _ || negb _); [discriminate|].
  destruct (OTP.findOne _ _ _) as [r|] eqn:Hfound; [|discriminate].
  destruct (otp_refused _ _); [discriminate|].
  destruct (negb (JS.strict_eq _ _)); [discriminate|].
  destruct (negb (validatePassword _)); [discriminate|].
  apply findOne_Some in Hfound. destruct Hfound as (Hin & Hemail & _).
  unfold otps_known in Hknown. rewrite Forall_forall in Hknown.
  destruct (Hknown r Hin) as [Hlow Hacc]. rewrite <- Hemail, Hlow.
  destruct (User.findOne_email _ _); [discriminate | congruence].
Qed.

(** X19: the reset step checks the code exactly as the validate step does:
    with both passwords given, a reset is refused with
    "Invalid or expired OTP" exactly when [validateOTP] refuses the same
    email and code at the same time. *)
Theorem reset_checks_code_like_validate (st : Store) (body : Body) (now : Z) :
  JS.truthy (newPassword body) = true ->
  JS.truthy (confirmPassword body) = true ->
  (snd (resetPassword st body now) = Threw 200 "Invalid or expired OTP" <->
   snd (validateOTP st body now) = Threw 200 "Invalid or expired OTP").
Proof.
  intros Hn Hc. rewrite validateOTP_response. unfold resetPassword.
  rewrite Hn, Hc. cbn [negb orb].
  destruct (otp_refused _ now); [tauto|].
  split; [|discriminate].
  destruct (negb (JS.strict_eq _ _)); [discriminate|].
  destruct (negb (validatePassword _)); [discriminate|].
  destruct (User.findOne_email _ _); discriminate.
Qed.

(** X20: in a given store a code does not come back to life: once
    [validateOTP] has refused an email and code, it refuses them at every
    later time. *)
Theorem refused_code_stays_refused (st : Store) (body : Body) (now later : Z) :
  now <= later ->
  snd (validateOTP st body now) = Threw 200 "Invalid or expired OTP" ->
  snd (validateOTP st body later) = Threw 200 "Invalid or expired OTP".
Proof.
  intros Hlater. rewrite !validateOTP_response.
  destruct (OTP.findOne _ _ _) as [r|]; [|trivial].
  destruct (otp_refused (Some r) now) eqn:Hnow; [|discriminate].
  intros _. apply otp_refused_Some in Hnow.
  assert (Hthen : otp_refused (Some r) later = true)
    by (apply otp_refused_Some; lia).
  now rewrite Hthen.
Qed.

(** X21: a username or an email that is not a string never reaches the
    store: registration answers with the missing-fields error or with the
    format error of that field, and login and forgot-password answer a
    non-string email with a missing-field or invalid-email error. *)
Theorem non_string_fields_are_refused (st : Store) (body : Body) (now : Z)
    (rnd : PrimFloat.float) :
  ((forall s, username body <> JS.Str s) ->
   registerUser st body now = (st, Threw 400 "Please provide all required fields") \/
   registerUser st body now = (st, Threw 200 "Invalid username format")) /\
  ((forall s, email body <> JS.Str s) ->
   (registerUser st body now = (st, Threw 400 "Please provide all required fields") \/
    registerUser st body now = (st, Threw 200 "Invalid username format") \/
    registerUser st body now = (st, Threw 200 "Invalid email address")) /\
   (loginUser st body now = (st, Threw 200 "Please provide email and password") \/
    loginUser st body now = (st, Threw 200 "Invalid email address")) /\
   (forgotPassword st body now rnd = (st, Threw 200 "Please provide an email") \/
    forgotPassword st body now rnd = (st, Threw 200 "Invalid email address"))).
Proof.
  split.
  - intros Hu. unfold registerUser.
    destruct (negb _ || negb _ || negb _); [now left|]. right.
    destruct (username body) as [| | | |s]; try reflexivity.
    now contradiction (Hu s).
  - intros He.
    assert (Hbad : validateEmail (JS.Str (sanitizeInput (email body))) = false).
    { destruct (email body) as [| | | |s]; try reflexivity.
      now contradiction (He s). }
    unfold registerUser, loginUser, forgotPassword. rewrite Hbad.
    cbn [negb]. repeat split; split_tests; auto.
Qed.

End Flows.

Section FlowsExamples.

Import Controller.

Lemma stub_matches_its_hash :
  forall d pw,
    User.password d = hashPassword (Capabilities := Stub.capabilities) pw ->
    matchPassword (Capabilities := Stub.capabilities) d pw = true.
Proof. intros d pw Hd. cbn in *. rewrite Hd. apply String.eqb_refl. Qed.

Lemma register_stored_username_witness :
  exists user,
    users (fst (registerUser (H := Stub.capabilities) Stub.alice_store
                  (Stub.sign_up "  bob_7 " "Bob@B.co" "abc123") 5000)) =
      (users Stub.alice_store ++ [user])%list /\
    User.username user = "bob_7" /\
    usernameRegex (User.username user) = true.
Proof.
  destruct (register_stored_username (H := Stub.capabilities) Stub.alice_store
              (Stub.sign_up "  bob_7 " "Bob@B.co" "abc123") 5000 201 _ eq_refl)
    as (user & Husers & _ & Hclean).
  exists user. split; [exact Husers|].
  apply (Hclean "  bob_7 " eq_refl). intros t. discriminate.
Defined.

Lemma register_keeps_second_dollar_witness :
  exists user,
    In user (users (fst (registerUser (H := Stub.capabilities) empty_store
                           (Stub.sign_up "abc" "$$A@b.co" "abc123") 0))) /\
    User.email user = "$a@b.co".
Proof.
  exact (proj2 (register_keeps_second_dollar (H := Stub.capabilities)
                  empty_store (Stub.sign_up "abc" "$$A@b.co" "abc123") 0
                  "A@b.co" 201 _ eq_refl eq_refl)).
Defined.

Lemma refused_request_changes_nothing_witness :
  fst (handle (H := Stub.capabilities) Stub.alice_otp_store
         (reset_password (Stub.otp_form "alice@b.co" 482913 "newpass1" "other1")
                         2000)) =
  Stub.alice_otp_store.
Proof.
  exact (proj2 (proj2
    (refused_request_changes_nothing (H := Stub.capabilities)
       Stub.alice_otp_store
       (reset_password (Stub.otp_form "alice@b.co" 482913 "newpass1" "other1")
                       2000)
       eq_refl))).
Defined.

Lemma forgotPassword_mail_failure_keeps_code_witness :
  let st' := fst (forgotPassword (H := Stub.mail_down) Stub.alice_store
                                 (Stub.email_only "alice@b.co") 1000
                                 Stub.draw_482913) in
  snd (forgotPassword (H := Stub.mail_down) Stub.alice_store
                      (Stub.email_only "alice@b.co") 1000 Stub.draw_482913) =
    Threw 200 "connect ECONNREFUSED" /\
  otps st' = [OTP.mkDoc "alice@b.co" 482913 1000].
Proof.
  assert (Hacc : User.findOne_email (users Stub.alice_store)
                   (JS.toLowerCase
                      (sanitizeInput (email (Stub.email_only "alice@b.co"))))
                 <> None) by discriminate.
  destruct (forgotPassword_mail_failure_keeps_code (H := Stub.mail_down)
              Stub.alice_store (Stub.email_only "alice@b.co") 1000
              Stub.draw_482913 "connect ECONNREFUSED" eq_refl eq_refl Hacc
              (fun _ => eq_refl))
    as (Hthrew & Hotps & _).
  split; [exact Hthrew | exact Hotps].
Defined.

Lemma register_same_email_again_witness :
  registerUser (H := Stub.capabilities) Stub.alice_store
    (Stub.sign_up "alice2" " ALICE@b.co" "xyz789") 5000 =
  (Stub.alice_store, Threw 200 "Email already registered").
Proof.
  exact (register_same_email_again (H := Stub.capabilities) empty_store
           (Stub.sign_up "alice" "alice@b.co" "abc123")
           (Stub.sign_up "alice2" " ALICE@b.co" "xyz789") 0 5000 201 _
           eq_refl eq_refl eq_refl eq_refl eq_refl eq_refl eq_refl eq_refl).
Defined.

Lemma register_then_login_witness :
  loginUser (H := Stub.capabilities) Stub.alice_store
    (Stub.sign_up "alice" "alice@b.co" "abc123") 5000 =
  (Stub.alice_store,
   Json 200 (Identity (User.mkView 1 "alice" "alice@b.co" None None)
                      "t1.5000")).
Proof.
  destruct (register_then_login (H := Stub.capabilities) empty_store
              (Stub.sign_up "alice" "alice@b.co" "abc123") 0 5000 201 _
              stub_matches_its_hash eq_refl)
    as (view & _ & Hview & Hlogin).
  injection Hview as <-. exact Hlogin.
Defined.

Lemma reset_then_login_witness :
  let st' := fst (resetPassword (H := Stub.capabilities) Stub.alice_otp_store
                    (Stub.otp_form "alice@b.co" 482913 "newpass1" "newpass1")
                    2000) in
  loginUser (H := Stub.capabilities) st' (Stub.sign_in "alice@b.co" "newpass1")
            5000 =
  (st', Json 200 (Identity (User.mkView 1 "alice" "alice@b.co" None None)
                           "t1.5000")).
Proof.
  destruct (reset_then_login (H := Stub.capabilities) Stub.alice_otp_store
              (Stub.otp_form "alice@b.co" 482913 "newpass1" "newpass1")
              (Stub.sign_in "alice@b.co" "newpass1") 2000 5000
              stub_matches_its_hash eq_refl eq_refl eq_refl eq_refl eq_refl)
    as (target & Htarget & Hlogin).
  injection Htarget as <-. exact Hlogin.
Defined.

Lemma reset_code_can_be_replayed_witness :
  let st' := fst (resetPassword (H := Stub.capabilities) Stub.alice_otp_store
                    (Stub.otp_form "alice@b.co" 482913 "newpass1" "newpass1")
                    2000) in
  snd (resetPassword (H := Stub.capabilities) st'
         (Stub.otp_form "alice@b.co" 482913 "intruder9" "intruder9") 3000) =
  Json 200 (Ack "Password reset successfully" true).
Proof.
  destruct (reset_code_can_be_replayed (H := Stub.capabilities)
              Stub.alice_otp_store
              (Stub.otp_form "alice@b.co" 482913 "newpass1" "newpass1")
              (Stub.otp_form "alice@b.co" 482913 "intruder9" "intruder9")
              2000 3000 eq_refl eq_refl eq_refl eq_refl eq_refl eq_refl eq_refl)
    as (r & Hr & Hagain).
  injection Hr as <-. apply Hagain. cbn. lia.
Defined.

Lemma forgot_then_validate_witness :
  let st' := fst (forgotPassword (H := Stub.capabilities) Stub.alice_store
                    (Stub.email_only "alice@b.co") 1000 Stub.draw_482913) in
  validateOTP (H := Stub.capabilities) st'
    (Stub.otp_form "alice@b.co" 482913 EmptyString EmptyString) 300999 =
  (st', Json 200 (Ack "OTP validated" true)).
Proof.
  assert (Hacc : User.findOne_email (users Stub.alice_store)
                   (JS.toLowerCase
                      (sanitizeInput (email (Stub.email_only "alice@b.co"))))
                 <> None) by discriminate.
  apply (forgot_then_validate (H := Stub.capabilities) Stub.alice_store
           (Stub.email_only "alice@b.co")
           (Stub.otp_form "alice@b.co" 482913 EmptyString EmptyString)
           1000 Stub.draw_482913 300999 eq_refl eq_refl Hacc eq_refl eq_refl
           eq_refl eq_refl).
  lia.
Defined.

Lemma identity_answers_hide_password_witness :
  User.v_password (User.mkView 1 "alice" "alice@b.co" None None) = None.
Proof.
  apply (identity_answers_hide_password (H := Stub.capabilities)
           Stub.alice_store (login (Stub.sign_in "alice@b.co" "abc123") 5000)
           200 (Identity (User.mkView 1 "alice" "alice@b.co" None None)
                         "t1.5000")).
  - intros body now. discriminate.
  - reflexivity.
  - reflexivity.
Defined.

Lemma reset_always_finds_the_user_witness :
  snd (resetPassword (H := Stub.capabilities) Stub.alice_otp_store
         (Stub.otp_form "alice@b.co" 482913 "newpass1" "newpass1") 2000) <>
  Threw 200 "User not found".
Proof.
  apply (reset_always_finds_the_user (H := Stub.capabilities)).
  exact (reach_handle (H := Stub.capabilities) Stub.alice_store
           (forgot_password (Stub.email_only "alice@b.co") 1000
                            Stub.draw_482913)
           alice_store_reachable).
Defined.

Lemma googleAuth_twice_witness :
  let st' := fst (googleAuth (H := Stub.capabilities) empty_store
                             (Stub.oauth "john") 5000) in
  users st' = [User.mkDoc 1 "John Doe" "john@x.io" "#" (Some "p.png")] /\
  googleAuth (H := Stub.capabilities) st' (Stub.oauth "john") 9000 =
  (st', Json 200 (GoogleSession true "j1.9000"
                    (User.mkView 1 "John Doe" "john@x.io" (Some "#")
                                 (Some "p.png")))).
Proof.
  split; [reflexivity|].
  exact (proj2 (googleAuth_twice (H := Stub.capabilities) empty_store
                  (Stub.oauth "john") 5000 9000 true "j1.5000" _
                  eq_refl eq_refl)).
Defined.

Lemma reset_checks_code_like_validate_witness :
  snd (resetPassword (H := Stub.capabilities) Stub.alice_otp_store
         (Stub.otp_form "alice@b.co" 482913 "newpass1" "newpass1") 301001) =
  Threw 200 "Invalid or expired OTP".
Proof.
  apply (reset_checks_code_like_validate (H := Stub.capabilities)
           Stub.alice_otp_store
           (Stub.otp_form "alice@b.co" 482913 "newpass1" "newpass1") 301001
           eq_refl eq_refl).
  reflexivity.
Defined.

Lemma refused_code_stays_refused_witness :
  snd (validateOTP (H := Stub.capabilities) Stub.alice_otp_store
         (Stub.otp_form "alice@b.co" 482913 EmptyString EmptyString) 900000) =
  Threw 200 "Invalid or expired OTP".
Proof.
  apply (refused_code_stays_refused (H := Stub.capabilities)
           Stub.alice_otp_store
           (Stub.otp_form "alice@b.co" 482913 EmptyString EmptyString)
           301001 900000); [lia | reflexivity].
Defined.

Lemma non_string_fields_are_refused_witness :
  loginUser (H := Stub.capabilities) Stub.alice_store
    (mkBody JS.Undefined (JS.Num 5) (JS.Str "abc123") JS.Undefined
            JS.Undefined JS.Undefined JS.Undefined) 0 =
  (Stub.alice_store, Threw 200 "Invalid email address").
Proof.
  assert (Hnot : forall s, JS.Num 5 <> JS.Str s) by discriminate.
  destruct (proj2 (non_string_fields_are_refused (H := Stub.capabilities)
                     Stub.alice_store
                     (mkBody JS.Undefined (JS.Num 5) (JS.Str "abc123")
                             JS.Undefined JS.Undefined JS.Undefined
                             JS.Undefined) 0 Stub.draw_482913) Hnot)
    as (_ & [Hmissing | Hinvalid] & _).
  - discriminate Hmissing.
  - exact Hinvalid.
Defined.

End FlowsExamples.

(* ================================================================= *)
(** ** More on the client auth slice *)

Section MoreSliceFacts.

Import AuthSlice.

Variable UserObj : Type.
Variable stringify : UserObj -> string.

Lemma reducer_token_synced (st : State UserObj * Storage)
    (a : action UserObj) :
  token_synced st -> token_synced (reducer stringify st a).
Proof.
  destruct st as [s ls]. unfold token_synced.
  destruct a as [ t | t p | t e | p | | ]; try destruct t; cbn; auto.
Qed.

(** X15: through every sequence of slice actions the string stored under
    the [token] key of [localStorage] stays the text of the state's token
    (the text [undefined] when a payload had no token), and the key stays
    absent only while the state's token is null: every reducer that changes
    one changes the other alike. *)
Theorem replay_token_synced (st : State UserObj * Storage)
    (acts : list (action UserObj)) :
  token_synced st -> token_synced (replay stringify st acts).
Proof.
  revert st. induction acts as [|a acts IH]; intros st Hst; [exact Hst|].
  cbn [replay fold_left]. apply IH. now apply reducer_token_synced.
Qed.

(** X16: a rejected request signs the user out only when it is get-me:
    that clears the user, the token and both storage keys, while the
    rejection of any other request leaves all four as they were. *)
Theorem only_getMe_rejection_signs_out (st : State UserObj * Storage)
    (t : thunk) (e : slot string) :
  let st' := reducer stringify st (rejected t e) in
  match t with
  | getMe =>
      user (fst st') = null /\ token (fst st') = null /\
      snd st' = mkStorage None None
  | _ =>
      user (fst st') = user (fst st) /\ token (fst st') = token (fst st) /\
      snd st' = snd st
  end.
Proof. destruct st as [s ls]. destruct t; cbn; auto. Qed.

(** X17: after an API call has failed, the slice is not loading and its
    error is a message that is not empty: the server's message when there
    is one, the thunk's fallback when the error carries none or an empty
    one. *)
Theorem failed_call_leaves_a_message (st : State UserObj * Storage)
    (t : thunk) (message : slot string) :
  let st' := reducer stringify st (settle t (failed message)) in
  loading (fst st') = false /\
  exists msg,
    error (fst st') = val msg /\
    msg <> EmptyString /\
    (forall c r, message = val (String c r) -> msg = String c r) /\
    (message = null \/ message = undefined \/ message = val EmptyString ->
     msg = fallback t).
Proof.
  destruct st as [s ls]. cbn [settle].
  assert (Hmsg : or_fallback message t <> EmptyString).
  { destruct message as [| |[|c r]]; destruct t; discriminate. }
  assert (Hsome : forall c r, message = val (String c r) ->
                              or_fallback message t = String c r).
  { now intros c r ->. }
  assert (Hnone : message = null \/ message = undefined \/
                  message = val EmptyString ->
                  or_fallback message t = fallback t).
  { now intros [-> | [-> | ->]]. }
  destruct t; cbn; (split; [reflexivity|]);
    eexists; (split; [reflexivity|]); auto.
Qed.

End MoreSliceFacts.

Section MoreSliceExamples.

Import AuthSlice.

Lemma replay_token_synced_witness :
  let st := (initialState string (val "tok") null,
             mkStorage (Some "tok") None) in
  token_synced
    (replay (fun u => u) st
            [pending loginUser;
             fulfilled loginUser (mkPayload string (val "u") (val "tok2"));
             setUser (mkPayload string (val "u") undefined);
             rejected forgotPassword (val "Invalid email address")]).
Proof.
  intros st. apply replay_token_synced. reflexivity.
Defined.

End MoreSliceExamples.

(* ================================================================= *)
(** ** The registration form against the server's checks *)

Section FormAndServer.

Import Controller.

Context `{Capabilities}.

Lemma dot_star_then_exists (p : ascii -> bool) (s : string) :
  RegisterPage.dot_star_then p s = true -> JS.exists_char p s = true.
Proof.
  induction s as [|c r IH]; [discriminate|].
  cbn [RegisterPage.dot_star_then JS.exists_char].
  destruct (p c); [reflexivity|]. cbn [orb]. intros Hr.
  apply andb_prop in Hr. now apply IH.
Qed.

Lemma letter_and_digit_ahead_exists (s : string) :
  RegisterPage.letter_and_digit_ahead s = true ->
  JS.exists_char JS.is_ascii_letter s = true /\
  JS.exists_char JS.is_digit s = true.
Proof.
  induction s as [|c r IH]; [discriminate|].
  cbn [RegisterPage.letter_and_digit_ahead]. intros Hs.
  apply orb_prop in Hs. destruct Hs as [Hhere | Hlater].
  - apply andb_prop in Hhere. destruct Hhere as [Hl Hd].
    split; now apply dot_star_then_exists.
  - destruct (IH Hlater) as [Hl Hd]. cbn [JS.exists_char].
    rewrite Hl, Hd. now rewrite !orb_true_r.
Qed.

Lemma atom_not_whitespace (c : ascii) :
  email_atom c = true -> negb (JS.is_whitespace c) = true.
Proof.
  unfold email_atom. destruct (JS.is_whitespace c); [discriminate|reflexivity].
Qed.

Lemma emailRegex_no_whitespace (s : string) :
  emailRegex s = true ->
  JS.forall_chars (fun c => negb (JS.is_whitespace c)) s = true /\
  s <> EmptyString.
Proof.
  unfold emailRegex. intros Hs. apply email_local_spec in Hs.
  destruct Hs as (l & d & -> & Hl & _ & Hd).
  apply andb_prop in Hd. destruct Hd as [Hd _]. split.
  - rewrite forall_chars_app. cbn [JS.forall_chars].
    rewrite (forall_chars_impl _ _ l atom_not_whitespace Hl).
    rewrite (forall_chars_impl _ _ d atom_not_whitespace Hd).
    reflexivity.
  - apply append_nonempty_r. discriminate.
Qed.

Lemma word_sanitized (s : string) :
  JS.forall_chars JS.is_word s = true -> sanitizeInput (JS.Str s) = s.
Proof.
  intros Hs. cbn [sanitizeInput]. rewrite trim_no_whitespace.
  - destruct s as [|c r]; [reflexivity|]. cbn [JS.forall_chars] in Hs.
    apply andb_prop in Hs. destruct Hs as [Hc _].
    cbn [strip_dollar]. now rewrite (word_not_dollar c Hc).
  - apply (forall_chars_impl JS.is_word); [|exact Hs].
    intros c Hc. now rewrite (word_not_whitespace c Hc).
Qed.

(** X18: a form that [validateForm] lets through, whose email has at most
    100 characters and does not begin with [$] and whose password has at
    most 128, passes the server's three format checks as it is: the server
    registers the username and email unchanged by sanitizing, and answers
    201 unless the email or the username is already taken. *)
Theorem accepted_form_passes_server_format (st : Store)
    (formData : RegisterPage.FormData) (now : Z) :
  RegisterPage.submits formData = true ->
  JS.length (RegisterPage.email formData) <= 100 ->
  JS.length (RegisterPage.password formData) <= 128 ->
  (forall t, RegisterPage.email formData <> String "$" t) ->
  let body := RegisterPage.body_of formData in
  sanitizeInput (username body) = RegisterPage.username formData /\
  sanitizeInput (email body) = RegisterPage.email formData /\
  (snd (registerUser st body now) = Threw 200 "Email already registered" \/
   snd (registerUser st body now) = Threw 200 "Username already taken" \/
   exists p, snd (registerUser st body now) = Json 201 p).
Proof.
  destruct formData as [u e pw]. unfold RegisterPage.submits,
    RegisterPage.validateForm, RegisterPage.body_of.
  cbn [RegisterPage.username RegisterPage.email RegisterPage.password].
  destruct (JS.length u <? 3) eqn:Hu3; [discriminate|].
  destruct (JS.length u >? 20) eqn:Hu20; [discriminate|].
  destruct (RegisterPage.wordRegex u) eqn:Hword; [|discriminate].
  destruct (emailRegex e) eqn:Hemail; [|discriminate].
  destruct (JS.length pw <? 6) eqn:Hp6; [discriminate|].
  destruct (RegisterPage.letter_and_digit_ahead pw) eqn:Hahead; [|discriminate].
  cbn [negb]. intros _ He100 Hp128 Hdollar.
  set (body := mkBody (JS.Str u) (JS.Str e) (JS.Str pw) JS.Undefined
                      JS.Undefined JS.Undefined JS.Undefined).
  apply Z.ltb_ge in Hu3, Hp6. rewrite Z.gtb_ltb in Hu20. apply Z.ltb_ge in Hu20.
  assert (Hwords : JS.forall_chars JS.is_word u = true).
  { destruct u; [discriminate | exact Hword]. }
  destruct (emailRegex_no_whitespace e Hemail) as [Hclean Hne].
  destruct (letter_and_digit_ahead_exists pw Hahead) as [Hletter Hdigit].
  assert (Hsu : sanitizeInput (username body) = u) by now apply word_sanitized.
  assert (Hse : sanitizeInput (email body) = e).
  { cbn [body email sanitizeInput]. rewrite (trim_no_whitespace e Hclean).
    now apply strip_dollar_none. }
  split; [exact Hsu|]. split; [exact Hse|].
  unfold registerUser. rewrite Hsu, Hse.
  assert (Htu : JS.truthy (username body) = true).
  { cbn. destruct u; [discriminate Hword | reflexivity]. }
  assert (Hte : JS.truthy (email body) = true).
  { cbn. destruct e; [congruence | reflexivity]. }
  assert (Htp : JS.truthy (password body) = true).
  { cbn. destruct pw; [cbn in Hp6; lia | reflexivity]. }
  rewrite Htu, Hte, Htp. cbn [negb orb].
  assert (Hvu : validateUsername (JS.Str u) = true).
  { cbn [validateUsername]. rewrite trim_no_whitespace.
    - unfold usernameRegex. rewrite Hwords. cbn [andb].
      apply andb_true_intro. split; apply Z.leb_le; lia.
    - apply (forall_chars_impl JS.is_word); [|exact Hwords].
      intros c Hc. now rewrite (word_not_whitespace c Hc). }
  assert (Hve : validateEmail (JS.Str e) = true).
  { cbn [validateEmail]. rewrite (trim_no_whitespace e Hclean), Hemail.
    apply Z.leb_le. exact He100. }
  assert (Hvp : validatePassword (password body) = true).
  { cbn [body password validatePassword]. rewrite Hletter, Hdigit.
    rewrite !andb_true_r. apply andb_true_intro.
    split; [apply Z.geb_le | apply Z.leb_le]; lia. }
  rewrite Hvu, Hve, Hvp. cbn [negb].
  destruct (User.findOne_email _ _) eqn:Hfe; [now left|].
  destruct (User.findOne_username _ _) eqn:Hfu; [right; now left|].
  rewrite (create_fresh _ _ _ _ _ Hfe Hfu). right. right. eexists. reflexivity.
Qed.

End FormAndServer.

Section FormAndServerExamples.

Import Controller.

Lemma accepted_form_passes_server_format_witness :
  exists p,
    snd (registerUser (H := Stub.capabilities) Stub.alice_store
           (RegisterPage.body_of
              (RegisterPage.mkForm "bob_7" "Bob@B.co" "abc123")) 5000) =
    Json 201 p.
Proof.
  assert (Hdollar : forall t, "Bob@B.co" <> String "$" t) by discriminate.
  destruct (accepted_form_passes_server_format (H := Stub.capabilities)
              Stub.alice_store
              (RegisterPage.mkForm "bob_7" "Bob@B.co" "abc123") 5000
              eq_refl ltac:(cbn; lia) ltac:(cbn; lia) Hdollar)
    as (_ & _ & [Hdup | [Hdup | Hok]]).
  - discriminate Hdup.
  - discriminate Hdup.
  - exact Hok.
Defined.

End FormAndServerExamples.
